(** * Warehouse visualiser: unit normalisation, gap arrays, pallet placement
      and pallet addresses

    A shallow embedding of the parts of the warehouse visualiser that carry
    its arithmetic and indexing rules, followed by the properties proved
    about them.

    - [JS]: the fragment of JavaScript the components rely on (numbers,
      property lookup on object literals, [||], [*]).
    - [PalletConfigComponent]: pallet-config.component.ts.
    - [WorkstationConfigComponent]: workstation-config.component.ts.
    - [VisualizationComponent]: visualization.component.ts.
    - [WarehouseVisualizerComponent]: warehouse.component.ts.
    - [Schema]: the SQL script that creates the tables and derives the
      search identifiers.

    Part I is the embedding, Part II the vocabulary the properties are
    stated in, Part III the properties and their proofs.

    JavaScript numbers are IEEE 754 binary64 values; they are modelled by
    Rocq's primitive floats, whose operations are the same binary64
    operations with round-to-nearest-even.  Counts and indices are
    integers.  The coordinates of the drawn scene alone are taken over the
    rationals (see [VisualizationComponent]). *)

From Stdlib Require Import Ascii String ZArith Floats QArith Qminmax Lia Lqa.
From Stdlib Require Import DecimalString DecimalPos DecimalZ.
From stdpp Require Import base tactics option list sorting gmap strings.

Set Warnings "-inexact-float".
Set Default Proof Using "Type".

(* ===================================================================== *)
(** * Part I. The embedding *)
(* ===================================================================== *)

(** ** JavaScript values used by the components *)
Module JS.

(** What a property read [o[k]] or an expression built from it can hold in
    this code base: a value of the table's type, [undefined], or one of the
    built-in functions and objects every object literal inherits from
    [Object.prototype]. *)
Inductive value (V : Type) : Type :=
| Val (v : V)
| Undefined
| Builtin.
Arguments Val {V} v.
Arguments Undefined {V}.
Arguments Builtin {V}.

(** The property names an object literal inherits from [Object.prototype]. *)
Definition Object_prototype_names : list string :=
  [ "constructor"; "__proto__"; "hasOwnProperty"; "isPrototypeOf";
    "propertyIsEnumerable"; "toLocaleString"; "toString"; "valueOf";
    "__defineGetter__"; "__defineSetter__"; "__lookupGetter__";
    "__lookupSetter__" ]%string.

(** [o[k]] for an object literal [o] with the own properties [own]: an own
    property wins, then the prototype chain is searched. *)
Definition get {V : Type} (own : gmap string V) (k : string) : value V :=
  match own !! k with
  | Some v => Val v
  | None => if bool_decide (k ∈ Object_prototype_names) then Builtin else Undefined
  end.

(** Falsy numbers: [+0], [-0] and [NaN]. *)
Definition falsy_number (x : float) : bool :=
  (PrimFloat.eqb x 0 || PrimFloat.is_nan x)%bool.

(** Falsy strings: the empty string. *)
Definition falsy_string (s : string) : bool :=
  match s with EmptyString => true | String _ _ => false end.

(** [a || d] where [d] is a literal of the table's type. *)
Definition or_else {V : Type} (falsy : V -> bool) (a : value V) (d : V) : value V :=
  match a with
  | Val v => if falsy v then Val d else Val v
  | Undefined => Val d
  | Builtin => Builtin
  end.

(** [ToNumber]: [undefined] and the inherited built-ins all convert to [NaN]. *)
Definition ToNumber (a : value float) : float :=
  match a with
  | Val x => x
  | Undefined => PrimFloat.nan
  | Builtin => PrimFloat.nan
  end.

(** [x * a] for a number [x]. *)
Definition times (x : float) (a : value float) : float :=
  PrimFloat.mul x (ToNumber a).

(** [String.prototype.toLowerCase] on the ASCII letters; other code units
    are left alone (no key of the tables below is the lower-case form of a
    non-ASCII string). *)
Definition ascii_toLowerCase (c : ascii) : ascii :=
  let n := nat_of_ascii c in
  if ((65 <=? n)%nat && (n <=? 90)%nat)%bool then ascii_of_nat (n + 32) else c.

Fixpoint toLowerCase (s : string) : string :=
  match s with
  | EmptyString => EmptyString
  | String c r => String (ascii_toLowerCase c) (toLowerCase r)
  end.

(** [x || d] for a field that is present. *)
Definition number_or (x d : float) : float := if falsy_number x then d else x.
Definition string_or (s d : string) : string := if falsy_string s then d else s.

(** Exceptions the modelled code can raise. *)
Inductive error : Type :=
| TypeError
| RangeError.

(** The outcome of a method that mutates component state. *)
Inductive completion (A : Type) : Type :=
| Normal (a : A)
| Throw (e : error).
Arguments Normal {A} a.
Arguments Throw {A} e.

(** [Array(n).fill(v)] for an integer [n]: a length outside [0, 2^32 - 1]
    is a RangeError. *)
Definition Array_fill {A : Type} (n : Z) (v : A) : completion (list A) :=
  if ((0 <=? n)%Z && (n <? 2 ^ 32)%Z)%bool then Normal (replicate (Z.to_nat n) v)
  else Throw RangeError.

(** [a.slice(0, e)] for an integer [e]: a negative [e] counts from the end. *)
Definition slice_0 {A : Type} (a : list A) (e : Z) : list A :=
  if (e <? 0)%Z then take (Z.to_nat (Z.of_nat (length a) + e)) a
  else take (Z.to_nat e) a.

End JS.

(** ** warehouse.models.ts *)

Module Position.
Record t : Type := mk {
  floor : Z;
  row : Z;
  col : Z;
  depth : option Z;
  side : option string;
}.
End Position.

Module PalletConfig.
(** [color] is typed [string]; it holds whatever [palletColors[type] || ...]
    evaluates to. *)
Record t : Type := mk {
  type : string;
  weight : float;
  length_cm : float;
  width_cm : float;
  height_cm : float;
  color : JS.value string;
  position : Position.t;
}.

Definition with_color (c : JS.value string) (p : t) : t :=
  mk (type p) (weight p) (length_cm p) (width_cm p) (height_cm p) c (position p).
End PalletConfig.

Module SideAisleConfig.
(** The interface fields, plus [deep_gaps], which the side objects built by
    the warehouse component carry as well.  The counts are the integers
    entered in the form. *)
Record t : Type := mk {
  num_floors : Z;
  num_rows : Z;
  num_aisles : Z;
  depth : Z;
  custom_gaps : list float;   (* Gaps between aisles: (num_aisles * depth) - 1 gaps *)
  deep_gaps : list float;
  gap_front : float;
  gap_back : float;
  gap_left : float;
  gap_right : float;
  wall_gap_unit : string;
}.

Definition with_custom_gaps (g : list float) (c : t) : t :=
  mk (num_floors c) (num_rows c) (num_aisles c) (depth c) g (deep_gaps c)
     (gap_front c) (gap_back c) (gap_left c) (gap_right c) (wall_gap_unit c).

Definition with_num_aisles (n : Z) (c : t) : t :=
  mk (num_floors c) (num_rows c) n (depth c) (custom_gaps c) (deep_gaps c)
     (gap_front c) (gap_back c) (gap_left c) (gap_right c) (wall_gap_unit c).

(** The number of gaps the interface documents for a side. *)
Definition required_gaps (c : t) : Z :=
  Z.max 0 (num_aisles c * depth c - 1).
End SideAisleConfig.

(** The two sides of a workstation, ['left' | 'right']. *)
Module Side.
Inductive t : Type := left | right.
End Side.
Abbreviation Side := Side.t.

Module WorkstationConfig.
Record t : Type := mk {
  workstation_index : nat;
  aisle_space : float;
  aisle_space_unit : string;
  left_side_config : SideAisleConfig.t;
  right_side_config : SideAisleConfig.t;
  pallet_configs : list PalletConfig.t;
}.

Definition side_config (side : Side) (w : t) : SideAisleConfig.t :=
  match side with
  | Side.left => left_side_config w
  | Side.right => right_side_config w
  end.
End WorkstationConfig.


(** A gap as the forms hold it: a value and the unit it was typed in. *)
Module GapInput.
Record t : Type := mk { value : float; unit : string }.
End GapInput.

Module Dimensions.
Record t : Type := mk {
  length : float;
  width : float;
  height : float;
  height_safety_margin : float;
  unit : string;
}.
End Dimensions.

(** ** pallet-config.component.ts *)
Module PalletConfigComponent.
Import JS.

Definition lengthUnits : list string := ["cm"; "m"; "mm"; "ft"; "in"]%string.
Definition weightUnits : list string := ["kg"; "lbs"; "g"; "t"; "oz"]%string.

Definition convertToCm (value : float) (unit : string) : float :=
  let conversions : gmap string float :=
    {[ "cm" := 1; "m" := 100; "mm" := 0.1; "ft" := 30.48; "in" := 2.54 ]}%string%float in
  times value (or_else falsy_number (get conversions unit) 1%float).

Definition convertToKg (value : float) (unit : string) : float :=
  let conversions : gmap string float :=
    {[ "kg" := 1; "lbs" := 0.453592 ]}%string%float in
  times value (or_else falsy_number (get conversions unit) 1%float).

Definition convertFromCm (value : float) (unit : string) : float :=
  let conversions : gmap string float :=
    {[ "cm" := 1; "m" := 0.01; "mm" := 10; "ft" := 0.0328084; "in" := 0.393701 ]}%string%float in
  times value (or_else falsy_number (get conversions unit) 1%float).

Definition convertFromKg (value : float) (unit : string) : float :=
  let conversions : gmap string float :=
    {[ "kg" := 1; "lbs" := 2.20462 ]}%string%float in
  times value (or_else falsy_number (get conversions unit) 1%float).

(** The outputs the component emits. *)
Inductive event : Type :=
| palletChange (p : PalletConfig.t)
| removePallet.

(** The component's fields ([palletIndex] and [workstationIndex], which no
    method reads, are left out).  [pallet] is the object the parent passed
    in. *)
Record t : Type := mk {
  pallet : PalletConfig.t;
  maxFloors : Z;
  maxRows : Z;
  maxAisles : Z;
  maxDepth : Z;
  currentLengthUnit : string;
  currentWidthUnit : string;
  currentHeightUnit : string;
  currentWeightUnit : string;
  displayLength : float;
  displayWidth : float;
  displayHeight : float;
  displayWeight : float;
  emitted : list event;
}.

Definition with_pallet (p : PalletConfig.t) (c : t) : t :=
  mk p (maxFloors c) (maxRows c) (maxAisles c) (maxDepth c)
     (currentLengthUnit c) (currentWidthUnit c) (currentHeightUnit c) (currentWeightUnit c)
     (displayLength c) (displayWidth c) (displayHeight c) (displayWeight c) (emitted c).
Definition with_units (l w h kg : string) (c : t) : t :=
  mk (pallet c) (maxFloors c) (maxRows c) (maxAisles c) (maxDepth c) l w h kg
     (displayLength c) (displayWidth c) (displayHeight c) (displayWeight c) (emitted c).
Definition with_display (l w h kg : float) (c : t) : t :=
  mk (pallet c) (maxFloors c) (maxRows c) (maxAisles c) (maxDepth c)
     (currentLengthUnit c) (currentWidthUnit c) (currentHeightUnit c) (currentWeightUnit c)
     l w h kg (emitted c).
Definition emit (e : event) (c : t) : t :=
  mk (pallet c) (maxFloors c) (maxRows c) (maxAisles c) (maxDepth c)
     (currentLengthUnit c) (currentWidthUnit c) (currentHeightUnit c) (currentWeightUnit c)
     (displayLength c) (displayWidth c) (displayHeight c) (displayWeight c)
     (emitted c ++ [e]).

(** The entries of [palletTypes]: value, label and colour. *)
Definition palletTypes : list (string * string * string) :=
  [ ("wooden", "Wooden", "#8B4513"); ("plastic", "Plastic", "#1E90FF");
    ("metal", "Metal", "#A9A9A9") ]%string.

Definition ngOnInit (c : t) : t :=
  let c :=
    with_display (PalletConfig.length_cm (pallet c)) (PalletConfig.width_cm (pallet c))
                 (PalletConfig.height_cm (pallet c)) (PalletConfig.weight (pallet c)) c in
  with_units "cm" "cm" "cm" "kg" c.

Definition onPalletChange (c : t) : t :=
  (* Convert display values to cm and kg before emitting *)
  let p := pallet c in
  let p :=
    PalletConfig.mk (PalletConfig.type p)
      (convertToKg (displayWeight c) (currentWeightUnit c))
      (convertToCm (displayLength c) (currentLengthUnit c))
      (convertToCm (displayWidth c) (currentWidthUnit c))
      (convertToCm (displayHeight c) (currentHeightUnit c))
      (PalletConfig.color p) (PalletConfig.position p) in
  let c := with_pallet p c in
  emit (palletChange (pallet c)) c.

Definition onTypeChange (type : string) (c : t) : t :=
  let p := pallet c in
  let palletType := List.find (fun pt => bool_decide (pt.1.1 = type)) palletTypes in
  (* palletType?.color || '#8B4513' *)
  let color :=
    match palletType with
    | Some pt => string_or pt.2 "#8B4513"
    | None => "#8B4513"%string
    end in
  let p :=
    PalletConfig.mk type (PalletConfig.weight p) (PalletConfig.length_cm p)
      (PalletConfig.width_cm p) (PalletConfig.height_cm p) (Val color)
      (PalletConfig.position p) in
  onPalletChange (with_pallet p c).

Definition onRemove (c : t) : t := emit removePallet c.

Definition onUnitChange (field unit : string) (c : t) : t :=
  (* Convert current value to new unit *)
  let c :=
    if bool_decide (field = "length"%string) then
      let currentValue := convertFromCm (PalletConfig.length_cm (pallet c)) unit in
      with_units unit (currentWidthUnit c) (currentHeightUnit c) (currentWeightUnit c)
        (with_display currentValue (displayWidth c) (displayHeight c) (displayWeight c) c)
    else if bool_decide (field = "width"%string) then
      let currentValue := convertFromCm (PalletConfig.width_cm (pallet c)) unit in
      with_units (currentLengthUnit c) unit (currentHeightUnit c) (currentWeightUnit c)
        (with_display (displayLength c) currentValue (displayHeight c) (displayWeight c) c)
    else if bool_decide (field = "height"%string) then
      let currentValue := convertFromCm (PalletConfig.height_cm (pallet c)) unit in
      with_units (currentLengthUnit c) (currentWidthUnit c) unit (currentWeightUnit c)
        (with_display (displayLength c) (displayWidth c) currentValue (displayWeight c) c)
    else if bool_decide (field = "weight"%string) then
      let currentValue := convertFromKg (PalletConfig.weight (pallet c)) unit in
      with_units (currentLengthUnit c) (currentWidthUnit c) (currentHeightUnit c) unit
        (with_display (displayLength c) (displayWidth c) (displayHeight c) currentValue c)
    else c in
  onPalletChange c.

(** [Array.from({ length: n }, (_, i) => i + 1)] for an integer [n]. *)
Definition options (n : Z) : list Z :=
  (fun i : nat => (Z.of_nat i + 1)%Z) <$> seq 0 (Z.to_nat n).

Definition getFloorOptions (c : t) : list Z := options (maxFloors c).
Definition getRowOptions (c : t) : list Z := options (maxRows c).
Definition getAisleOptions (c : t) : list Z := options (maxAisles c).
Definition getDepthOptions (c : t) : list Z := options (maxDepth c).

End PalletConfigComponent.

(** ** workstation-config.component.ts *)
Module WorkstationConfigComponent.
Import JS.

(** The outputs the component emits. *)
Inductive event : Type :=
| aisleConfigChange (c : SideAisleConfig.t)
| palletsChange (ps : list PalletConfig.t)
| addPallet
| removePallet (index : nat)
| updateAisleGaps.

(** The component's fields.  [aisleConfig] is the side object the parent
    passed in: assignments to its fields are visible to the parent. *)
Record t : Type := mk {
  workstationIndex : nat;
  aisleConfig : SideAisleConfig.t;
  pallets : list PalletConfig.t;
  aisleGaps : list GapInput.t;
  emitted : list event;
}.

Definition with_aisleConfig (a : SideAisleConfig.t) (c : t) : t :=
  mk (workstationIndex c) a (pallets c) (aisleGaps c) (emitted c).
Definition with_aisleGaps (g : list GapInput.t) (c : t) : t :=
  mk (workstationIndex c) (aisleConfig c) (pallets c) g (emitted c).
Definition emit (e : event) (c : t) : t :=
  mk (workstationIndex c) (aisleConfig c) (pallets c) (aisleGaps c) (emitted c ++ [e]).

Definition convertToCm (value : float) (unit : string) : float :=
  let conversions : gmap string float :=
    {[ "cm" := 1; "m" := 100; "mm" := 0.1; "ft" := 30.48; "in" := 2.54 ]}%string%float in
  times value (or_else falsy_number (get conversions unit) 1%float).

(** [custom_gaps[i] || 20]: an index past the end reads [undefined]. *)
Definition gap_or_default (custom_gaps : list float) (i : nat) : float :=
  match custom_gaps !! i with
  | Some g => if falsy_number g then 20%float else g
  | None => 20%float
  end.

Definition initializeAisleGaps (c : t) : t :=
  let numGaps := (SideAisleConfig.num_aisles (aisleConfig c) - 1)%Z in
  (* for (let i = 0; i < numGaps; i++) this.aisleGaps.push(...) *)
  let push (acc : list GapInput.t) (i : nat) :=
    acc ++ [ GapInput.mk
               (gap_or_default (SideAisleConfig.custom_gaps (aisleConfig c)) i)
               (string_or (SideAisleConfig.wall_gap_unit (aisleConfig c)) "cm") ] in
  with_aisleGaps (foldl push [] (seq 0 (Z.to_nat numGaps))) c.

Definition ngOnInit (c : t) : t := initializeAisleGaps c.

(** [ngOnChanges] for a change of the [aisleConfig] input to the side
    object [currentValue], which the framework has stored in the field. *)
Definition ngOnChanges (currentValue : SideAisleConfig.t) (c : t) : t :=
  initializeAisleGaps (with_aisleConfig currentValue c).

Definition onAisleConfigChange (c : t) : t :=
  let custom_gaps :=
    (fun gap => convertToCm (GapInput.value gap) (GapInput.unit gap)) <$> aisleGaps c in
  let c := with_aisleConfig (SideAisleConfig.with_custom_gaps custom_gaps (aisleConfig c)) c in
  let c := emit (aisleConfigChange (aisleConfig c)) c in
  emit updateAisleGaps c.

Definition addAisleGap (c : t) : t :=
  if (0 <? SideAisleConfig.num_aisles (aisleConfig c))%Z then
    let n := (SideAisleConfig.num_aisles (aisleConfig c) + 1)%Z in
    let c := with_aisleConfig (SideAisleConfig.with_num_aisles n (aisleConfig c)) c in
    onAisleConfigChange (initializeAisleGaps c)
  else c.

Definition removeAisleGap (c : t) : t :=
  if (1 <? SideAisleConfig.num_aisles (aisleConfig c))%Z then
    let n := (SideAisleConfig.num_aisles (aisleConfig c) - 1)%Z in
    let c := with_aisleConfig (SideAisleConfig.with_num_aisles n (aisleConfig c)) c in
    onAisleConfigChange (initializeAisleGaps c)
  else c.

Definition updateAisleCount (c : t) : t :=
  let oldCount := (Z.of_nat (length (aisleGaps c)) + 1)%Z in
  let newCount := SideAisleConfig.num_aisles (aisleConfig c) in
  let c :=
    if (oldCount <? newCount)%Z then
      (* for (let i = oldCount; i < newCount; i++) this.aisleGaps.push(...) *)
      let push (acc : list GapInput.t) (i : nat) :=
        acc ++ [ GapInput.mk 20%float
                   (string_or (SideAisleConfig.wall_gap_unit (aisleConfig c)) "cm") ] in
      with_aisleGaps
        (foldl push (aisleGaps c) (seq (Z.to_nat oldCount) (Z.to_nat (newCount - oldCount)))) c
    else if (newCount <? oldCount)%Z then
      with_aisleGaps (slice_0 (aisleGaps c) (newCount - 1)) c
    else c in
  let custom_gaps :=
    (fun gap => convertToCm (GapInput.value gap) (GapInput.unit gap)) <$> aisleGaps c in
  let c := with_aisleConfig (SideAisleConfig.with_custom_gaps custom_gaps (aisleConfig c)) c in
  onAisleConfigChange c.

Definition with_pallets (ps : list PalletConfig.t) (c : t) : t :=
  mk (workstationIndex c) (aisleConfig c) ps (aisleGaps c) (emitted c).

Definition onPalletsChange (c : t) : t := emit (palletsChange (pallets c)) c.

Definition onAddPallet (c : t) : t :=
  let newPallet :=
    PalletConfig.mk "wooden" 500%float 120%float 80%float 15%float (Val "#8B4513"%string)
                    (Position.mk 1 1 1 None None) in
  let c := with_pallets (pallets c ++ [newPallet]) c in
  emit addPallet (onPalletsChange c).

Definition onRemovePallet (index : nat) (c : t) : t :=
  let c := with_pallets (delete index (pallets c)) c in
  emit (removePallet index) (onPalletsChange c).

Definition getTotalGapsWidth (c : t) : float :=
  if bool_decide (length (aisleGaps c) = 0) then 0%float
  else
    foldl (fun (totalWidthCm : float) (gap : GapInput.t) =>
             PrimFloat.add totalWidthCm (convertToCm (GapInput.value gap) (GapInput.unit gap)))
          0%float (aisleGaps c).

End WorkstationConfigComponent.

(** ** warehouse.component.ts *)
Module WallGaps.
Record t : Type := mk {
  front : GapInput.t;
  back : GapInput.t;
  left : GapInput.t;
  right : GapInput.t;
}.
End WallGaps.

(** An element of the component's [workstations] array. *)
Module UIWorkstation.
Record t : Type := mk {
  aisle_space : float;
  aisle_space_unit : string;
  left_side_config : SideAisleConfig.t;
  right_side_config : SideAisleConfig.t;
  leftWallGaps : WallGaps.t;
  rightWallGaps : WallGaps.t;
  pallets : list PalletConfig.t;
}.

Definition with_left_side_config (s : SideAisleConfig.t) (w : t) : t :=
  mk (aisle_space w) (aisle_space_unit w) s (right_side_config w)
     (leftWallGaps w) (rightWallGaps w) (pallets w).
Definition with_right_side_config (s : SideAisleConfig.t) (w : t) : t :=
  mk (aisle_space w) (aisle_space_unit w) (left_side_config w) s
     (leftWallGaps w) (rightWallGaps w) (pallets w).
Definition with_pallets (ps : list PalletConfig.t) (w : t) : t :=
  mk (aisle_space w) (aisle_space_unit w) (left_side_config w) (right_side_config w)
     (leftWallGaps w) (rightWallGaps w) ps.

(** [side === 'left' ? workstation.left_side_config : workstation.right_side_config] *)
Definition side_config (side : Side) (w : t) : SideAisleConfig.t :=
  match side with
  | Side.left => left_side_config w
  | Side.right => right_side_config w
  end.
Definition with_side_config (side : Side) (s : SideAisleConfig.t) (w : t) : t :=
  match side with
  | Side.left => with_left_side_config s w
  | Side.right => with_right_side_config s w
  end.
End UIWorkstation.

Module WarehouseVisualizerComponent.
Import JS.

(** The fields the modelled methods read or write: [num_workstations] and
    [workstation_configs] are those of [warehouseConfig]. *)
Record t : Type := mk {
  num_workstations : Z;
  workstation_configs : list WorkstationConfig.t;
  workstations : list UIWorkstation.t;
  previousNumWorkstations : Z;
}.

Definition with_workstation_configs (cs : list WorkstationConfig.t) (c : t) : t :=
  mk (num_workstations c) cs (workstations c) (previousNumWorkstations c).
Definition with_workstations (ws : list UIWorkstation.t) (c : t) : t :=
  mk (num_workstations c) (workstation_configs c) ws (previousNumWorkstations c).
Definition with_previousNumWorkstations (n : Z) (c : t) : t :=
  mk (num_workstations c) (workstation_configs c) (workstations c) n.

Definition palletColors : gmap string string :=
  {[ "wooden" := "#8B4513"; "plastic" := "#1E90FF"; "metal" := "#A9A9A9" ]}%string.

Definition getUnitConversionFactor (unit : string) : value float :=
  let factors : gmap string float :=
    {[ "cm" := 1; "m" := 100; "mm" := 0.1; "ft" := 30.48; "in" := 2.54 ]}%string%float in
  or_else falsy_number (get factors (toLowerCase unit)) 1%float.

Definition createDefaultWorkstation : UIWorkstation.t :=
  let defaultSideConfig :=
    SideAisleConfig.mk 4 4 2 1 [] [] 100%float 100%float 100%float 100%float "cm" in
  let wallGaps :=
    WallGaps.mk (GapInput.mk 100%float "cm") (GapInput.mk 100%float "cm")
                (GapInput.mk 100%float "cm") (GapInput.mk 100%float "cm") in
  UIWorkstation.mk 500%float "cm" defaultSideConfig defaultSideConfig wallGaps wallGaps [].

Definition updateWorkstationConfigs (c : t) : t :=
  let per_workstation (index : nat) (workstation : UIWorkstation.t) : WorkstationConfig.t :=
    let aisleWidthCm :=
      times (number_or (UIWorkstation.aisle_space workstation) 200%float)
            (getUnitConversionFactor
               (string_or (UIWorkstation.aisle_space_unit workstation) "cm")) in
    let getGapCm (gaps : WallGaps.t) (key : WallGaps.t -> GapInput.t) : float :=
      times (number_or (GapInput.value (key gaps)) 0%float)
            (getUnitConversionFactor (string_or (GapInput.unit (key gaps)) "cm")) in
    let convertGaps (gaps : list float) (unit : string) : list float :=
      (fun g => times g (getUnitConversionFactor (string_or unit "cm"))) <$> gaps in
    let side (s : SideAisleConfig.t) (wallGaps : WallGaps.t) : SideAisleConfig.t :=
      SideAisleConfig.mk
        (SideAisleConfig.num_floors s) (SideAisleConfig.num_rows s)
        (SideAisleConfig.num_aisles s) (SideAisleConfig.depth s)
        (convertGaps (SideAisleConfig.custom_gaps s)
                     (string_or (SideAisleConfig.wall_gap_unit s) "cm"))
        (SideAisleConfig.deep_gaps s)
        (getGapCm wallGaps WallGaps.front) (getGapCm wallGaps WallGaps.back)
        (getGapCm wallGaps WallGaps.left) (getGapCm wallGaps WallGaps.right)
        "cm" in
    WorkstationConfig.mk
      index aisleWidthCm "cm"
      (side (UIWorkstation.left_side_config workstation) (UIWorkstation.leftWallGaps workstation))
      (side (UIWorkstation.right_side_config workstation) (UIWorkstation.rightWallGaps workstation))
      ((fun pallet =>
          PalletConfig.with_color
            (or_else falsy_string (get palletColors (PalletConfig.type pallet)) "#8B4513")
            pallet) <$> UIWorkstation.pallets workstation) in
  with_workstation_configs (imap per_workstation (workstations c)) c.

Definition adjustWorkstationsArray (newNumWorkstations : nat) (c : t) : t :=
  let currentLength := length (workstations c) in
  let c :=
    if (currentLength <? newNumWorkstations)%nat then
      (* for (let i = currentLength; i < newNumWorkstations; i++) push(...) *)
      with_workstations
        (foldl (fun acc (_ : nat) => acc ++ [createDefaultWorkstation]) (workstations c)
               (seq currentLength (newNumWorkstations - currentLength))) c
    else if (newNumWorkstations <? currentLength)%nat then
      with_workstations (take newNumWorkstations (workstations c)) c
    else c in
  updateWorkstationConfigs c.

Definition onNumWorkstationsBlur (c : t) : t :=
  let newNumWorkstations := num_workstations c in
  if (negb (newNumWorkstations =? previousNumWorkstations c)%Z && (0 <? newNumWorkstations)%Z)%bool
  then with_previousNumWorkstations newNumWorkstations
         (adjustWorkstationsArray (Z.to_nat newNumWorkstations) c)
  else c.

Definition initializeWorkstations (c : t) : t :=
  let c :=
    with_workstations
      (foldl (fun acc (_ : nat) => acc ++ [createDefaultWorkstation]) []
             (seq 0 (Z.to_nat (num_workstations c)))) c in
  updateWorkstationConfigs c.

Definition addPallet (workstationIndex : nat) (c : t) : completion t :=
  let newPallet :=
    PalletConfig.mk "wooden" 1200%float 100%float 100%float 15%float
      (get palletColors "wooden")
      (Position.mk 1 1 1 (Some 1%Z) (Some "left"%string)) in
  match workstations c !! workstationIndex with
  | None => Throw TypeError
  | Some workstation =>
      let workstation :=
        UIWorkstation.with_pallets (UIWorkstation.pallets workstation ++ [newPallet]) workstation in
      Normal (updateWorkstationConfigs
                (with_workstations (<[workstationIndex := workstation]> (workstations c)) c))
  end.

Definition removePallet (workstationIndex palletIndex : nat) (c : t) : t :=
  match workstations c !! workstationIndex with
  | None => c
  | Some workstation =>
      let workstation :=
        UIWorkstation.with_pallets (delete palletIndex (UIWorkstation.pallets workstation))
                                   workstation in
      updateWorkstationConfigs
        (with_workstations (<[workstationIndex := workstation]> (workstations c)) c)
  end.

Definition updateAisleGaps (workstationIndex : nat) (side : Side) (c : t) : completion t :=
  match workstations c !! workstationIndex with
  | None => Throw TypeError
  | Some workstation =>
      let sideConfig := UIWorkstation.side_config side workstation in
      let numAisles := SideAisleConfig.num_aisles sideConfig in
      let depth := SideAisleConfig.depth sideConfig in
      (* Number of gaps = (num_aisles x depth) - 1 *)
      let requiredGaps := Z.max 0 (numAisles * depth - 1) in
      let currentGaps := SideAisleConfig.custom_gaps sideConfig in
      match Array_fill requiredGaps 50%float with   (* Default 50cm gap *)
      | Throw e => Throw e
      | Normal newGaps =>
          (* Preserve existing gap values *)
          let copy (newGaps : list float) (i : nat) : list float :=
            match currentGaps !! i with
            | Some g => <[i := g]> newGaps
            | None => newGaps
            end in
          let newGaps :=
            foldl copy newGaps (seq 0 (min (length currentGaps) (length newGaps))) in
          let sideConfig := SideAisleConfig.with_custom_gaps newGaps sideConfig in
          let workstation := UIWorkstation.with_side_config side sideConfig workstation in
          Normal (updateWorkstationConfigs
                    (with_workstations (<[workstationIndex := workstation]> (workstations c)) c))
      end
  end.

Definition onSideConfigChange (workstationIndex : nat) (side : Side) (c : t) : completion t :=
  updateAisleGaps workstationIndex side c.

(** [mapConfigToUIWorkstations]: the workstations array rebuilt from the
    configuration list that was loaded. *)
Definition mapConfigToUIWorkstations (c : t) : t :=
  let per_config (wsConfig : WorkstationConfig.t) : UIWorkstation.t :=
    (* Helper to create UI Wall Gap object *)
    let createWallGaps (sideConfig : SideAisleConfig.t) : WallGaps.t :=
      let unit := string_or (SideAisleConfig.wall_gap_unit sideConfig) "cm" in
      WallGaps.mk (GapInput.mk (SideAisleConfig.gap_front sideConfig) unit)
                  (GapInput.mk (SideAisleConfig.gap_back sideConfig) unit)
                  (GapInput.mk (SideAisleConfig.gap_left sideConfig) unit)
                  (GapInput.mk (SideAisleConfig.gap_right sideConfig) unit) in
    UIWorkstation.mk
      (WorkstationConfig.aisle_space wsConfig) (WorkstationConfig.aisle_space_unit wsConfig)
      (WorkstationConfig.left_side_config wsConfig)
      (WorkstationConfig.right_side_config wsConfig)
      (createWallGaps (WorkstationConfig.left_side_config wsConfig))
      (createWallGaps (WorkstationConfig.right_side_config wsConfig))
      (WorkstationConfig.pallet_configs wsConfig) in
  let c := with_workstations (per_config <$> workstation_configs c) c in
  (* Update tracking variable *)
  with_previousNumWorkstations (Z.of_nat (length (workstations c))) c.

Definition onPalletChange (workstationIndex palletIndex : nat) (updatedPallet : PalletConfig.t)
    (c : t) : t :=
  match workstations c !! workstationIndex with
  | None => c
  | Some workstation =>
      match UIWorkstation.pallets workstation !! palletIndex with
      | None => c
      | Some _ =>
          let workstation :=
            UIWorkstation.with_pallets
              (<[palletIndex := updatedPallet]> (UIWorkstation.pallets workstation))
              workstation in
          updateWorkstationConfigs
            (with_workstations (<[workstationIndex := workstation]> (workstations c)) c)
      end
  end.

Definition getTotalPallets (c : t) : Z :=
  foldl (fun (total : Z) (workstation : UIWorkstation.t) =>
           (total + Z.of_nat (length (UIWorkstation.pallets workstation)))%Z)
        0%Z (workstations c).

(** [n || 1] for a count. *)
Definition count_or_1 (n : Z) : Z := if (n =? 0)%Z then 1%Z else n.

(* Limits helpers *)
Definition getMaxFloors (workstation : UIWorkstation.t) : Z :=
  Z.max (count_or_1 (SideAisleConfig.num_floors (UIWorkstation.left_side_config workstation)))
        (count_or_1 (SideAisleConfig.num_floors (UIWorkstation.right_side_config workstation))).

Definition getMaxRows (workstation : UIWorkstation.t) : Z :=
  Z.max (count_or_1 (SideAisleConfig.num_rows (UIWorkstation.left_side_config workstation)))
        (count_or_1 (SideAisleConfig.num_rows (UIWorkstation.right_side_config workstation))).

Definition getMaxAisles (workstation : UIWorkstation.t) : Z :=
  let leftTotal :=
    (count_or_1 (SideAisleConfig.num_aisles (UIWorkstation.left_side_config workstation))
     * count_or_1 (SideAisleConfig.depth (UIWorkstation.left_side_config workstation)))%Z in
  let rightTotal :=
    (count_or_1 (SideAisleConfig.num_aisles (UIWorkstation.right_side_config workstation))
     * count_or_1 (SideAisleConfig.depth (UIWorkstation.right_side_config workstation)))%Z in
  Z.max leftTotal rightTotal.

Definition getMaxDepth (workstation : UIWorkstation.t) : Z :=
  Z.max (count_or_1 (SideAisleConfig.depth (UIWorkstation.left_side_config workstation)))
        (count_or_1 (SideAisleConfig.depth (UIWorkstation.right_side_config workstation))).

End WarehouseVisualizerComponent.

(** The dimension fields of the same component, and the methods that keep
    them. *)
Module WarehouseDimensionFields.
Import JS.

(** The four dimension fields of the side bar. *)
Inductive dimension : Type :=
| length
| width
| height
| height_safety_margin.

(** An object with one property per dimension field. *)
Record per_dimension (A : Type) : Type := mk_per_dimension {
  of_length : A;
  of_width : A;
  of_height : A;
  of_height_safety_margin : A;
}.
Arguments mk_per_dimension {A} _ _ _ _.
Arguments of_length {A} _.
Arguments of_width {A} _.
Arguments of_height {A} _.
Arguments of_height_safety_margin {A} _.

(** [o[field]] *)
Definition field_of {A : Type} (o : per_dimension A) (field : dimension) : A :=
  match field with
  | length => of_length o
  | width => of_width o
  | height => of_height o
  | height_safety_margin => of_height_safety_margin o
  end.

(** The fields the dimension methods read or write:
    [warehouse_dimensions] is that of [warehouseConfig]. *)
Record dimensions : Type := mk_dimensions {
  warehouse_dimensions : Dimensions.t;
  dimensionUnits : per_dimension string;
  displayDimensions : per_dimension float;
  warehouseDimensions : option (per_dimension float);
}.

(* Sync display dimensions from config (on init) *)
Definition syncDimensionsFromConfig (d : dimensions) : dimensions :=
  let dim := warehouse_dimensions d in
  let unit := string_or (Dimensions.unit dim) "cm" in
  mk_dimensions dim
    (mk_per_dimension unit unit unit unit)
    (mk_per_dimension (Dimensions.length dim) (Dimensions.width dim) (Dimensions.height dim)
                      (Dimensions.height_safety_margin dim))
    (warehouseDimensions d).

Definition updateWarehouseDimensions (d : dimensions) : dimensions :=
  let dim := warehouse_dimensions d in
  mk_dimensions dim (dimensionUnits d) (displayDimensions d)
    (Some (mk_per_dimension (Dimensions.length dim) (Dimensions.width dim)
                            (Dimensions.height dim) (Dimensions.height_safety_margin dim))).

(* Update config from display dimensions (converting to cm) *)
Definition updateDimensionValue (field : dimension) (d : dimensions) : dimensions :=
  let value := field_of (displayDimensions d) field in
  let unit := field_of (dimensionUnits d) field in
  let factor := WarehouseVisualizerComponent.getUnitConversionFactor unit in
  (* Store in config as cm *)
  let dim := warehouse_dimensions d in
  let dim :=
    match field with
    | length =>
        Dimensions.mk (times value factor) (Dimensions.width dim) (Dimensions.height dim)
                      (Dimensions.height_safety_margin dim) (Dimensions.unit dim)
    | width =>
        Dimensions.mk (Dimensions.length dim) (times value factor) (Dimensions.height dim)
                      (Dimensions.height_safety_margin dim) (Dimensions.unit dim)
    | height =>
        Dimensions.mk (Dimensions.length dim) (Dimensions.width dim) (times value factor)
                      (Dimensions.height_safety_margin dim) (Dimensions.unit dim)
    | height_safety_margin =>
        Dimensions.mk (Dimensions.length dim) (Dimensions.width dim) (Dimensions.height dim)
                      (times value factor) (Dimensions.unit dim)
    end in
  updateWarehouseDimensions
    (mk_dimensions dim (dimensionUnits d) (displayDimensions d) (warehouseDimensions d)).

End WarehouseDimensionFields.

(** ** visualization.component.ts

    The scene is a tree of groups and meshes.  Its coordinates are taken
    over exact rationals: what is proved about the scene is geometric
    (where a box is centred, how far its base is from the floor) and is
    decided before any rounding of the arithmetic. *)
Module Vector3.
Record t : Type := mk { x : Q; y : Q; z : Q }.
Definition add (a b : t) : t := mk (x a + x b) (y a + y b) (z a + z b).
End Vector3.

Module PalletDims.
Record t : Type := mk { length : Q; width : Q; height : Q }.
End PalletDims.

Module PalletData.
Record t : Type := mk { type : string; color : string; dims : option PalletDims.t }.
End PalletData.

Module AisleData.
(** [position] is the corner of the cell with the smallest coordinates,
    [dimensions] its extent along x ([width]), y ([length]) and z
    ([height]). *)
Record t : Type := mk {
  id : string;
  type : option string;
  position : Vector3.t;
  dimensions : PalletDims.t;
  pallets : option (list PalletData.t);
}.
End AisleData.

(** [THREE.BoxGeometry(width, height, depth)]: a box centred on the origin
    of the mesh that carries it, with these extents along x, y and z. *)
Module BoxGeometry.
Record t : Type := mk { width : Q; height : Q; depth : Q }.
End BoxGeometry.

(** [THREE.Mesh]: a geometry placed at [position] in its parent's frame. *)
Module Mesh.
Record t : Type := mk { geometry : BoxGeometry.t; position : Vector3.t }.
End Mesh.

(** [THREE.Group]: [position] in the parent's frame, and the meshes added. *)
Module Group.
Record t : Type := mk { name : string; position : Vector3.t; children : list Mesh.t }.
End Group.

(** The [indices] field of an aisle of the layout. *)
Module AisleIndices.
Record t : Type := mk {
  floor : Z;
  row : Z;
  col : Z;
  depth : option Z;
  aisle : option Z;
}.
End AisleIndices.

Module WorkstationGapData.
Record t : Type := mk {
  id : string;
  type : string;
  position : Vector3.t;
  dimensions : PalletDims.t;
}.
End WorkstationGapData.

(** Coordinates together with the values [Infinity], [-Infinity] and [NaN],
    which [calculateWorkstationBounds] starts from or can return. *)
Module Number.
Inductive t : Type :=
| Finite (q : Q)
| Infinity
| NegInfinity
| NaN.

(** [Math.min] *)
Definition min (a b : t) : t :=
  match a, b with
  | NaN, _ | _, NaN => NaN
  | NegInfinity, _ | _, NegInfinity => NegInfinity
  | Infinity, c | c, Infinity => c
  | Finite p, Finite q => Finite (Qmin p q)
  end.

(** [Math.max] *)
Definition max (a b : t) : t :=
  match a, b with
  | NaN, _ | _, NaN => NaN
  | Infinity, _ | _, Infinity => Infinity
  | NegInfinity, c | c, NegInfinity => c
  | Finite p, Finite q => Finite (Qmax p q)
  end.

(** [a + b] *)
Definition add (a b : t) : t :=
  match a, b with
  | NaN, _ | _, NaN => NaN
  | Infinity, NegInfinity | NegInfinity, Infinity => NaN
  | Infinity, _ | _, Infinity => Infinity
  | NegInfinity, _ | _, NegInfinity => NegInfinity
  | Finite p, Finite q => Finite (p + q)
  end.

End Number.

Module VisualizationComponent.
Import JS.

Definition getUnitConversionFactor (unit : string) : value float :=
  let factors : gmap string float :=
    {[ "cm" := 1; "m" := 100; "mm" := 0.1; "ft" := 30.48; "in" := 2.54;
       "yd" := 91.44 ]}%string%float in
  or_else falsy_number (get factors (toLowerCase unit)) 1%float.













End VisualizationComponent.

(** ** The database script

    Tables are lists of rows in insertion order.  [warehouse_aisle_table]
    is left out: no search-identifier query reads it. *)
Module warehouse_table.
Record row : Type := mk {
  warehouse_id : string;
  warehouse_name : string;
  warehouse_length : float;
  warehouse_width : float;
  warehouse_height : float;
  warehouse_height_safety_margin : float;
  warehousedimensions_unit : string;
}.
End warehouse_table.

Module workstation_table.
Record row : Type := mk {
  workstation_id : Z;           (* SERIAL PRIMARY KEY *)
  warehouse_id : string;        (* REFERENCES warehouse_table *)
  workstation_index : Z;
  workstation_gap : float;
}.
End workstation_table.

Module warehouse_pallet_table.
Record row : Type := mk {
  pallet_id : Z;                (* SERIAL PRIMARY KEY *)
  workstation_id : Z;           (* REFERENCES workstation_table *)
  type : string;
  weight : float;
  length : float;
  width : float;
  height : float;
  pallet_dimensions_unit : string;
  color : string;
  side : string;
  floor_idx : Z;
  row_idx : Z;
  aisle_idx : Z;
  deep_idx : Z;
}.
End warehouse_pallet_table.

Module Schema.

Record database : Type := mk {
  warehouses : list warehouse_table.row;
  workstations : list workstation_table.row;
  workstation_id_seq : Z;
  pallets : list warehouse_pallet_table.row;
  pallet_id_seq : Z;
}.

(** After the CREATE TABLE statements: empty tables, sequences at 1. *)
Definition created : database := mk [] [] 1 [] 1.

(** The INSERT statements of the script.  The SERIAL key is not among the
    columns an INSERT lists: it is drawn from the table's sequence. *)
Inductive statement : Type :=
| INSERT_INTO_warehouse_table (r : warehouse_table.row)
| INSERT_INTO_workstation_table (warehouse_id : string) (workstation_index : Z)
    (workstation_gap : float)
| INSERT_INTO_warehouse_pallet_table
    (workstation_id : Z) (type color side : string)
    (weight length width height : float)
    (floor_idx row_idx aisle_idx deep_idx : Z).

(** One statement; [None] when a constraint rejects the row. *)
Definition execute (st : statement) (db : database) : option database :=
  match st with
  | INSERT_INTO_warehouse_table r =>
      if bool_decide (warehouse_table.warehouse_id r
                      ∈ warehouse_table.warehouse_id <$> warehouses db)
      then None
      else Some (mk (warehouses db ++ [r]) (workstations db) (workstation_id_seq db)
                    (pallets db) (pallet_id_seq db))
  | INSERT_INTO_workstation_table wh idx gap =>
      if bool_decide (wh ∈ warehouse_table.warehouse_id <$> warehouses db)
      then Some (mk (warehouses db)
                    (workstations db ++ [workstation_table.mk (workstation_id_seq db) wh idx gap])
                    (workstation_id_seq db + 1) (pallets db) (pallet_id_seq db))
      else None
  | INSERT_INTO_warehouse_pallet_table ws type color side weight length width height
      floor_idx row_idx aisle_idx deep_idx =>
      if (bool_decide (ws ∈ workstation_table.workstation_id <$> workstations db)
          && (0 <=? floor_idx)%Z && (0 <=? row_idx)%Z
          && (0 <=? aisle_idx)%Z && (0 <=? deep_idx)%Z)%bool
      then Some (mk (warehouses db) (workstations db) (workstation_id_seq db)
                    (pallets db ++
                       [warehouse_pallet_table.mk (pallet_id_seq db) ws type weight length width
                          height "cm" color side floor_idx row_idx aisle_idx deep_idx])
                    (pallet_id_seq db + 1))
      else None
  end.

(** A script: its statements in order, stopping at the first rejection. *)
Fixpoint run (script : list statement) (db : database) : option database :=
  match script with
  | [] => Some db
  | st :: rest =>
      match execute st db with
      | Some db' => run rest db'
      | None => None
      end
  end.

(** An integer as CONCAT prints it. *)
Definition text (n : Z) : string := NilZero.string_of_int (Z.to_int n).

(** [FROM warehouse_pallet_table p JOIN workstation_table w
      ON p.workstation_id = w.workstation_id] *)
Definition joined : Type := warehouse_pallet_table.row * workstation_table.row.

Definition join (db : database) : list joined :=
  p ← pallets db;
  w ← filter (fun w => workstation_table.workstation_id w
                     = warehouse_pallet_table.workstation_id p) (workstations db);
  [(p, w)].

(** [PARTITION BY p.workstation_id, p.side, p.floor_idx, p.row_idx, p.aisle_idx] *)
Definition partition_key (r : joined) : Z * string * Z * Z * Z :=
  (warehouse_pallet_table.workstation_id r.1, warehouse_pallet_table.side r.1,
   warehouse_pallet_table.floor_idx r.1, warehouse_pallet_table.row_idx r.1,
   warehouse_pallet_table.aisle_idx r.1).

(** [ORDER BY p.pallet_id] *)
Definition by_pallet_id (r1 r2 : joined) : Prop :=
  (warehouse_pallet_table.pallet_id r1.1 <= warehouse_pallet_table.pallet_id r2.1)%Z.

Global Instance by_pallet_id_dec (r1 r2 : joined) : Decision (by_pallet_id r1 r2).
Proof. unfold by_pallet_id. apply _. Defined.

(** [ROW_NUMBER() OVER (PARTITION BY ... ORDER BY p.pallet_id)]: the rows
    are split by partition key, each partition is sorted, and its rows are
    numbered from 1. *)
Definition ROW_NUMBER (rows : list joined) : list (joined * Z) :=
  k ← remove_dups (partition_key <$> rows);
  imap (fun i r => (r, Z.of_nat (S i)))
       (merge_sort by_pallet_id (filter (fun r => partition_key r = k) rows)).

Record result : Type := mk_result {
  pallet_id : Z;
  search_id : string;
  type : string;
  color : string;
  side : string;
  weight : float;
  position_0based : string;
  position_1based : string;
}.

(** The SELECT list of the query under "Pallet Data with Search IDs", for
    a pallet row [p], the workstation row [w] it joins with and its row
    number [n]. *)
Definition select_list (p : warehouse_pallet_table.row) (w : workstation_table.row) (n : Z)
  : result :=
  mk_result
    (warehouse_pallet_table.pallet_id p)
    ("WS" ++ text (workstation_table.workstation_index w + 1)
     ++ "-R" ++ text (warehouse_pallet_table.row_idx p + 1)
     ++ "-C" ++ text (warehouse_pallet_table.aisle_idx p + 1)
     ++ "-F" ++ text (warehouse_pallet_table.floor_idx p + 1)
     ++ "-P" ++ text n)
    (warehouse_pallet_table.type p)
    (warehouse_pallet_table.color p)
    (warehouse_pallet_table.side p)
    (warehouse_pallet_table.weight p)
    ("[" ++ text (warehouse_pallet_table.floor_idx p) ++ ","
     ++ text (warehouse_pallet_table.row_idx p) ++ ","
     ++ text (warehouse_pallet_table.aisle_idx p) ++ ","
     ++ text (warehouse_pallet_table.deep_idx p) ++ "]")
    ("[" ++ text (warehouse_pallet_table.floor_idx p + 1) ++ ","
     ++ text (warehouse_pallet_table.row_idx p + 1) ++ ","
     ++ text (warehouse_pallet_table.aisle_idx p + 1) ++ ","
     ++ text (warehouse_pallet_table.deep_idx p + 1) ++ "]").

(** The query, as the set of rows it returns (its final ORDER BY only
    arranges them). *)
Definition search_ids (db : database) : list result :=
  (fun r : joined * Z => select_list r.1.1 r.1.2 r.2) <$> ROW_NUMBER (join db).

(** The sample data of the script. *)
Definition sample_data : list statement :=
  [ INSERT_INTO_warehouse_table
      (warehouse_table.mk "WH-DB-01" "Warehouse 1" 3000 6000 1500 300 "cm");
    INSERT_INTO_workstation_table "WH-DB-01" 0 100;
    INSERT_INTO_workstation_table "WH-DB-01" 1 100;
    (* workstation 1, left side *)
    INSERT_INTO_warehouse_pallet_table 1 "Wooden" "#8B4513" "left" 15 120 100 15 0 0 0 0;
    INSERT_INTO_warehouse_pallet_table 1 "Plastic" "#1E90FF" "left" 15 120 100 14 1 0 0 0;
    INSERT_INTO_warehouse_pallet_table 1 "Metal" "#A9A9A9" "left" 45 120 100 15 2 0 0 0;
    INSERT_INTO_warehouse_pallet_table 1 "Wooden" "#8B4513" "left" 30 120 100 15 0 1 1 0;
    (* workstation 1, right side *)
    INSERT_INTO_warehouse_pallet_table 1 "Plastic" "#1E90FF" "right" 18 120 80 14 0 0 0 0;
    INSERT_INTO_warehouse_pallet_table 1 "Metal" "#A9A9A9" "right" 50 120 100 15 3 3 0 1;
    (* workstation 2, left side *)
    INSERT_INTO_warehouse_pallet_table 2 "Wooden" "#8B4513" "left" 22 120 100 15 0 4 0 0;
    INSERT_INTO_warehouse_pallet_table 2 "Plastic" "#1E90FF" "left" 12.5 110 110 12 1 2 1 0;
    (* workstation 2, right side *)
    INSERT_INTO_warehouse_pallet_table 2 "Metal" "#A9A9A9" "right" 60 120 100 15 2 4 0 1;
    INSERT_INTO_warehouse_pallet_table 2 "Wooden" "#8B4513" "right" 28 120 100 15 1 3 0 0
  ]%string%float%Z.

End Schema.

(* ===================================================================== *)
(** * Part II. The vocabulary of the properties *)
(* ===================================================================== *)

(** ** Gap arrays *)

(** The gap invariant the interface documents for a side. *)
Definition gap_invariant (s : SideAisleConfig.t) : Prop :=
  Z.of_nat (length (SideAisleConfig.custom_gaps s)) = SideAisleConfig.required_gaps s.

(** An array cut down or padded to [n] gaps: the first values of
    [currentGaps], then the default 50. *)
Definition resized (currentGaps : list float) (n : nat) : list float :=
  take n currentGaps ++ replicate (n - length currentGaps) 50%float.

(** The default workstation: two aisles of depth one per side and an empty
    gap array, where one gap is required. *)
Definition one_default_workstation : WarehouseVisualizerComponent.t :=
  WarehouseVisualizerComponent.mk
    1 [] [WarehouseVisualizerComponent.createDefaultWorkstation] 1.

(** A workstation whose left side holds five gaps where one is required. *)
Definition one_overfull_workstation : WarehouseVisualizerComponent.t :=
  let sideConfig :=
    SideAisleConfig.mk 4 4 2 1 [10; 20; 30; 40; 60]%float [] 100%float 100%float 100%float
                       100%float "cm" in
  WarehouseVisualizerComponent.mk
    1 []
    [UIWorkstation.with_left_side_config sideConfig
       WarehouseVisualizerComponent.createDefaultWorkstation] 1.

(** ** The workstation configuration list *)

(** The list of configurations carries the indices 0, 1, 2, ... in order,
    one per workstation. *)
Definition indexed (c : WarehouseVisualizerComponent.t) : Prop :=
  WorkstationConfig.workstation_index <$> WarehouseVisualizerComponent.workstation_configs c
  = seq 0 (length (WarehouseVisualizerComponent.workstations c)).

(** Three default workstations, configuration list not built yet. *)
Definition three_workstations : WarehouseVisualizerComponent.t :=
  WarehouseVisualizerComponent.mk
    3 []
    [WarehouseVisualizerComponent.createDefaultWorkstation;
     WarehouseVisualizerComponent.createDefaultWorkstation;
     WarehouseVisualizerComponent.createDefaultWorkstation] 0.

(** ** Cells and pallets of the scene *)



(** ** Addresses *)

Definition pallet_id_lt (p q : warehouse_pallet_table.row) : Prop :=
  (warehouse_pallet_table.pallet_id p < warehouse_pallet_table.pallet_id q)%Z.
Definition workstation_id_lt (w v : workstation_table.row) : Prop :=
  (workstation_table.workstation_id w < workstation_table.workstation_id v)%Z.

(** What the SERIAL keys and the REFERENCES constraint maintain: keys grow
    with the insertion order and stay below their sequence, and every
    pallet row refers to a workstation row. *)
Record consistent (db : Schema.database) : Prop := {
  pallets_sorted : StronglySorted pallet_id_lt (Schema.pallets db);
  pallets_below_seq :
    Forall (fun p => (warehouse_pallet_table.pallet_id p < Schema.pallet_id_seq db)%Z)
           (Schema.pallets db);
  workstations_sorted : StronglySorted workstation_id_lt (Schema.workstations db);
  workstations_below_seq :
    Forall (fun w => (workstation_table.workstation_id w < Schema.workstation_id_seq db)%Z)
           (Schema.workstations db);
  foreign_key :
    Forall (fun p => warehouse_pallet_table.workstation_id p
                     ∈ workstation_table.workstation_id <$> Schema.workstations db)
           (Schema.pallets db);
}.

(** The key of the cell side a pallet row refers to: workstation, side,
    floor, row and column. *)
Definition cell_key (p : warehouse_pallet_table.row) : Z * string * Z * Z * Z :=
  (warehouse_pallet_table.workstation_id p, warehouse_pallet_table.side p,
   warehouse_pallet_table.floor_idx p, warehouse_pallet_table.row_idx p,
   warehouse_pallet_table.aisle_idx p).

(** The rank of the pallet [p] stored at position [i] of the table: its
    1-based position among the pallets with its key, in insertion order. *)
Definition occupancy_rank (ps : list warehouse_pallet_table.row) (i : nat)
    (p : warehouse_pallet_table.row) : nat :=
  S (length (filter (fun q => cell_key q = cell_key p) (take i ps))).

(** The address format: WS<n>-R<n>-C<n>-F<n>-P<n>, every field 1-based. *)
Definition address (workstationIndex row column floor : Z) (rank : nat) : string :=
  "WS" ++ Schema.text (workstationIndex + 1) ++ "-R" ++ Schema.text (row + 1)
  ++ "-C" ++ Schema.text (column + 1) ++ "-F" ++ Schema.text (floor + 1)
  ++ "-P" ++ Schema.text (Z.of_nat rank).

(** The workstation row a pallet row joins with. *)
Definition workstation_of (db : Schema.database) (p : warehouse_pallet_table.row)
  : workstation_table.row :=
  default (workstation_table.mk 0 "" 0 0%float)
    (head (filter (fun w => workstation_table.workstation_id w
                            = warehouse_pallet_table.workstation_id p)
                  (Schema.workstations db))).

(** The database the script's sample data produces. *)
Definition sample_database : Schema.database :=
  default Schema.created (Schema.run Schema.sample_data Schema.created).

(** A script that stores three pallets at floor 0, row 0, column 0 of one
    workstation: two on the left side, at two depths, and one on the
    right side. *)
Definition two_pallets_in_one_cell : list Schema.statement :=
  [ Schema.INSERT_INTO_warehouse_table
      (warehouse_table.mk "WH-DB-01" "Warehouse 1" 3000 6000 1500 300 "cm");
    Schema.INSERT_INTO_workstation_table "WH-DB-01" 0 100;
    Schema.INSERT_INTO_warehouse_pallet_table 1 "Wooden" "#8B4513" "left" 15 120 100 15 0 0 0 0;
    Schema.INSERT_INTO_warehouse_pallet_table 1 "Metal" "#A9A9A9" "right" 45 120 100 15 0 0 0 0;
    Schema.INSERT_INTO_warehouse_pallet_table 1 "Plastic" "#1E90FF" "left" 15 120 100 14 0 0 0 1
  ]%string%float%Z.

(** ** The pallet form *)

(** The stored pallet holds the displayed values converted to cm and kg. *)
Definition in_sync (c : PalletConfigComponent.t) : Prop :=
  PalletConfig.length_cm (PalletConfigComponent.pallet c)
  = PalletConfigComponent.convertToCm (PalletConfigComponent.displayLength c)
                                      (PalletConfigComponent.currentLengthUnit c)
  /\ PalletConfig.width_cm (PalletConfigComponent.pallet c)
     = PalletConfigComponent.convertToCm (PalletConfigComponent.displayWidth c)
                                         (PalletConfigComponent.currentWidthUnit c)
  /\ PalletConfig.height_cm (PalletConfigComponent.pallet c)
     = PalletConfigComponent.convertToCm (PalletConfigComponent.displayHeight c)
                                         (PalletConfigComponent.currentHeightUnit c)
  /\ PalletConfig.weight (PalletConfigComponent.pallet c)
     = PalletConfigComponent.convertToKg (PalletConfigComponent.displayWeight c)
                                         (PalletConfigComponent.currentWeightUnit c).

(** ** The gap editor *)

(** A gap the component keeps when it re-reads it: a number that is not
    falsy. *)
Definition kept_gap (g : float) : Prop := JS.falsy_number g = false.

(** A side of three aisles with its two gaps, 30 and 40 cm. *)
Definition side_with_two_gaps : SideAisleConfig.t :=
  SideAisleConfig.mk 4 4 3 1 [30; 40]%float [] 100%float 100%float 100%float 100%float "cm".

(** ** The loaded configuration *)

(** A side as [updateWorkstationConfigs] publishes it and a reload keeps
    it: gaps in cm, no wall gap that [|| 0] would replace. *)
Definition canonical_side (s : SideAisleConfig.t) : Prop :=
  SideAisleConfig.wall_gap_unit s = "cm"%string
  /\ JS.number_or (SideAisleConfig.gap_front s) 0 = SideAisleConfig.gap_front s
  /\ JS.number_or (SideAisleConfig.gap_back s) 0 = SideAisleConfig.gap_back s
  /\ JS.number_or (SideAisleConfig.gap_left s) 0 = SideAisleConfig.gap_left s
  /\ JS.number_or (SideAisleConfig.gap_right s) 0 = SideAisleConfig.gap_right s.

(** A pallet whose colour is the one [palletColors] gives its type. *)
Definition canonical_pallet (p : PalletConfig.t) : Prop :=
  PalletConfig.color p
  = JS.or_else JS.falsy_string
      (JS.get WarehouseVisualizerComponent.palletColors (PalletConfig.type p)) "#8B4513".

Definition canonical_config (i : nat) (cfg : WorkstationConfig.t) : Prop :=
  WorkstationConfig.workstation_index cfg = i
  /\ JS.falsy_number (WorkstationConfig.aisle_space cfg) = false
  /\ WorkstationConfig.aisle_space_unit cfg = "cm"%string
  /\ canonical_side (WorkstationConfig.left_side_config cfg)
  /\ canonical_side (WorkstationConfig.right_side_config cfg)
  /\ Forall canonical_pallet (WorkstationConfig.pallet_configs cfg).

(** A configuration list in the form a reload and republication keep:
    indices in order, central aisle in cm and not falsy, canonical sides
    and pallets. *)
Definition canonical (cfgs : list WorkstationConfig.t) : Prop :=
  forall i cfg, cfgs !! i = Some cfg -> canonical_config i cfg.

(** The pallet [addPallet] of the warehouse component creates. *)
Definition new_pallet : PalletConfig.t :=
  PalletConfig.mk "wooden" 1200%float 100%float 100%float 15%float (JS.Val "#8B4513"%string)
    (Position.mk 1 1 1 (Some 1%Z) (Some "left"%string)).

(** The configuration [updateWorkstationConfigs] publishes for a default
    workstation at position [i]. *)
Definition default_config (i : nat) : WorkstationConfig.t :=
  let side :=
    SideAisleConfig.mk 4 4 2 1 [] [] 100%float 100%float 100%float 100%float "cm" in
  WorkstationConfig.mk i 500%float "cm" side side [].

(** ** Boxes of the scene *)




(** ** The rows of the pallet table *)


(** Pallets 1 and 5 of the sample data, and the first workstation. *)
Definition sample_pallet_1 : warehouse_pallet_table.row :=
  warehouse_pallet_table.mk 1 1 "Wooden" 15 120 100 15 "cm" "#8B4513" "left" 0 0 0 0.
Definition sample_pallet_5 : warehouse_pallet_table.row :=
  warehouse_pallet_table.mk 5 1 "Plastic" 18 120 80 14 "cm" "#1E90FF" "right" 0 0 0 0.
Definition sample_workstation_1 : workstation_table.row :=
  workstation_table.mk 1 "WH-DB-01" 0 100.

(* ===================================================================== *)
(** * Part III. Properties *)
(* ===================================================================== *)

(** ** Binary64 arithmetic *)
Section Binary64.
Import SpecFloat.

Lemma Prim2SF_one : Prim2SF 1 = S754_finite false 4503599627370496 (-52).
Proof. reflexivity. Qed.

Lemma digits2_pos_shift52 (m : positive) :
  Z.pos (digits2_pos (m * 4503599627370496)) = (Z.pos (digits2_pos m) + 52)%Z.
Proof. rewrite Pos.mul_comm. cbv [Pos.mul]. cbn [digits2_pos]. lia. Qed.

(** Multiplying a valid binary64 value by one rounds to the value itself. *)
Lemma SF64mul_one_r (s : spec_float) :
  valid_binary prec emax s = true -> SF64mul s (Prim2SF 1) = s.
Proof.
  rewrite Prim2SF_one.
  destruct s as [sx|sx| |sx mx ex]; cbn [SF64mul SFmul valid_binary]; intros Hv;
    rewrite ?xorb_false_r; try reflexivity.
  unfold bounded, canonical_mantissa in Hv.
  apply andb_prop in Hv as [Hc He].
  apply Z.eqb_eq in Hc.
  unfold binary_round_aux, shr_fexp. cbn [Zdigits2].
  rewrite digits2_pos_shift52.
  replace (Z.pos (digits2_pos mx) + 52 + (ex + -52))%Z
    with (Z.pos (digits2_pos mx) + ex)%Z by lia.
  rewrite Hc.
  replace (ex - (ex + -52))%Z with 52%Z by lia.
  rewrite Pos.mul_comm. cbv [Pos.mul].
  cbn [shr shr_record_of_loc iter_pos shr_1 orb shr_m loc_of_shr_record
       round_nearest_even Zdigits2].
  replace (ex + -52 + 52)%Z with ex by lia.
  rewrite Hc, Z.sub_diag. cbn [shr shr_m].
  rewrite He. reflexivity.
Qed.

Lemma float_mul_1_r (x : float) : PrimFloat.mul x 1 = x.
Proof.
  rewrite <- (SF2Prim_Prim2SF (PrimFloat.mul x 1)), mul_spec, SF64mul_one_r.
  - apply SF2Prim_Prim2SF.
  - apply Prim2SF_valid.
Qed.


End Binary64.

(** ** Unit conversion *)
Section Units.
Import JS.

Lemma get_absent {V : Type} (own : gmap string V) (k : string) :
  own !! k = None -> k ∉ Object_prototype_names -> get own k = Undefined.
Proof.
  intros Hown Hproto. unfold get. rewrite Hown.
  by rewrite bool_decide_eq_false_2.
Qed.

Lemma times_one (v : float) : times v (Val 1%float) = v.
Proof. apply float_mul_1_r. Qed.

Lemma times_absent (v : float) (own : gmap string float) (k : string) :
  own !! k = None -> k ∉ Object_prototype_names ->
  times v (or_else falsy_number (get own k) 1%float) = v.
Proof. intros Hown Hproto. rewrite get_absent by done. apply times_one. Qed.

(** A key outside the listed ones is absent from the table. *)
Ltac absent_key H :=
  repeat (apply not_elem_of_cons in H as [? H]);
  repeat (rewrite lookup_insert_ne by done);
  by apply lookup_singleton_ne.

Lemma convertToCm_unknown (v : float) (u : string) :
  u ∉ ["cm"; "m"; "mm"; "ft"; "in"]%string -> u ∉ Object_prototype_names ->
  PalletConfigComponent.convertToCm v u = v.
Proof. intros Hu Hp. apply times_absent; [absent_key Hu | done]. Qed.

Lemma convertToKg_unknown (v : float) (u : string) :
  u ∉ ["kg"; "lbs"]%string -> u ∉ Object_prototype_names ->
  PalletConfigComponent.convertToKg v u = v.
Proof. intros Hu Hp. apply times_absent; [absent_key Hu | done]. Qed.


End Units.






(** C10: for every value [v] and every unit [u] among g, t and oz,
    [convertToKg v u] is [v] unchanged, although [u] is one of the units
    the weight selection list offers. *)
Theorem C10_unlisted_weight_units (v : float) (u : string) :
  u ∈ ["g"; "t"; "oz"]%string ->
  PalletConfigComponent.convertToKg v u = v /\ u ∈ PalletConfigComponent.weightUnits.
Proof.
  intros Hu.
  repeat (apply elem_of_cons in Hu as [-> | Hu]); [| | | by apply elem_of_nil in Hu].
  all: split;
    [ apply convertToKg_unknown; compute_done
    | compute_done ].
Qed.

Lemma C10_witness :
  PalletConfigComponent.convertToKg 750 "g" = 750%float
  /\ "g"%string ∈ PalletConfigComponent.weightUnits.
Proof.
  apply (C10_unlisted_weight_units 750 "g").
  compute_done.
Defined.

(** ** Rebuilding a side's gap array (warehouse.component.ts) *)
Section GapArray.
Import JS WarehouseVisualizerComponent.

(** The copying loop of [updateAisleGaps], run for its first [k] rounds. *)
Lemma copy_loop_prefix (currentGaps newGaps : list float) (k : nat) :
  k <= length currentGaps -> k <= length newGaps ->
  foldl (fun (acc : list float) (i : nat) =>
           match currentGaps !! i with
           | Some g => <[i := g]> acc
           | None => acc
           end) newGaps (seq 0 k)
  = take k currentGaps ++ drop k newGaps.
Proof.
  induction k as [|k IH]; intros Hc Hn.
  - by rewrite take_0, drop_0.
  - rewrite seq_S, foldl_app, IH by lia. simpl.
    destruct (lookup_lt_is_Some_2 currentGaps k) as [g Hg]; [lia|].
    rewrite Hg, (take_S_r _ _ g) by done.
    rewrite insert_app_r_alt by (rewrite length_take; lia).
    rewrite length_take, Nat.min_l, Nat.sub_diag by lia.
    destruct (lookup_lt_is_Some_2 newGaps k) as [d Hd]; [lia|].
    rewrite (drop_S _ d) by done. simpl.
    by rewrite <- app_assoc.
Qed.

Lemma length_resized (currentGaps : list float) (n : nat) :
  length (resized currentGaps n) = n.
Proof. unfold resized. rewrite length_app, length_take, length_replicate. lia. Qed.



Lemma Array_fill_in_range {A : Type} (n : Z) (v : A) :
  (0 <= n < 2 ^ 32)%Z -> Array_fill n v = Normal (replicate (Z.to_nat n) v).
Proof.
  intros [H0 H1]. unfold Array_fill.
  apply Z.leb_le in H0. apply Z.ltb_lt in H1. by rewrite H0, H1.
Qed.

(** [updateAisleGaps] on a workstation that exists, for a gap count an
    array can have: it returns normally, the side holds the resized array,
    the rest of the workstations is untouched, and the configuration list
    has been rebuilt. *)
Lemma updateAisleGaps_spec (c : t) (i : nat) (side : Side) (w : UIWorkstation.t) :
  workstations c !! i = Some w ->
  (SideAisleConfig.required_gaps (UIWorkstation.side_config side w) < 2 ^ 32)%Z ->
  let sideConfig := UIWorkstation.side_config side w in
  let newGaps :=
    resized (SideAisleConfig.custom_gaps sideConfig)
            (Z.to_nat (SideAisleConfig.required_gaps sideConfig)) in
  let w' :=
    UIWorkstation.with_side_config side
      (SideAisleConfig.with_custom_gaps newGaps sideConfig) w in
  updateAisleGaps i side c
  = Normal (updateWorkstationConfigs (with_workstations (<[i := w']> (workstations c)) c)).
Proof.
  intros Hw Hreq. cbv zeta. unfold updateAisleGaps. rewrite Hw.
  fold (SideAisleConfig.required_gaps (UIWorkstation.side_config side w)).
  set (req := SideAisleConfig.required_gaps (UIWorkstation.side_config side w)) in *.
  assert (0 <= req)%Z by (unfold req, SideAisleConfig.required_gaps; lia).
  rewrite Array_fill_in_range by lia.
  rewrite length_replicate, copy_loop_prefix by (rewrite ?length_replicate; lia).
  do 4 f_equal. unfold resized.
  set (cur := SideAisleConfig.custom_gaps (UIWorkstation.side_config side w)).
  destruct (decide (length cur <= Z.to_nat req)) as [Hle|Hgt].
  - rewrite Nat.min_l by done. rewrite take_ge by done.
    rewrite drop_replicate. by rewrite (take_ge cur) by done.
  - rewrite Nat.min_r by lia. rewrite drop_replicate, Nat.sub_diag.
    by replace (Z.to_nat req - length cur) with 0 by lia.
Qed.

End GapArray.

Section GapArrayClaims.
Import JS WarehouseVisualizerComponent.

Lemma side_config_with_side_config (side : Side) (s : SideAisleConfig.t) (w : UIWorkstation.t) :
  UIWorkstation.side_config side (UIWorkstation.with_side_config side s w) = s.
Proof. by destruct side. Qed.


(** Gaps entered in centimetres reach the configuration list unchanged. *)
Lemma published_in_cm (gaps : list float) :
  (fun g => times g (getUnitConversionFactor (string_or "cm" "cm"))) <$> gaps = gaps.
Proof.
  induction gaps as [|g gaps IH]; [done|].
  rewrite fmap_cons, IH. f_equal. apply float_mul_1_r.
Qed.

(** C3, as stated, fails: a side whose gap array has the wrong length is
    not rejected.  The default workstation has no gap where one is
    required, and [updateAisleGaps] returns normally with the array padded
    to the default 50; an array of five gaps where one is required is cut
    down to its first element. *)
Lemma C3_counterexample :
  (length (SideAisleConfig.custom_gaps
             (UIWorkstation.left_side_config createDefaultWorkstation)) = 0
   /\ SideAisleConfig.required_gaps
        (UIWorkstation.left_side_config createDefaultWorkstation) = 1%Z
   /\ (UIWorkstation.left_side_config <$>
         match updateAisleGaps 0 Side.left one_default_workstation with
         | Normal c' => workstations c'
         | Throw _ => []
         end)
      = [SideAisleConfig.mk 4 4 2 1 [50%float] [] 100%float 100%float 100%float 100%float "cm"])
  /\ (SideAisleConfig.custom_gaps <$>
        (UIWorkstation.left_side_config <$>
           match updateAisleGaps 0 Side.left one_overfull_workstation with
           | Normal c' => workstations c'
           | Throw _ => []
           end))
     = [[10%float]].
Proof. repeat split; vm_compute; reflexivity. Qed.

(** C3 (amended): for every side whose gap array has a length other than
    max(0, num_aisles * depth - 1), [updateAisleGaps] does not reject the
    configuration: for a workstation that exists and a required length an
    array can have (below 2^32) it returns normally, and the side then
    holds an array of exactly the required length, made of the first
    values of the old array followed by as many 50s as are missing. *)
Theorem C3_mismatch_is_resized (c : t) (i : nat) (side : Side) (w : UIWorkstation.t) :
  workstations c !! i = Some w ->
  (SideAisleConfig.required_gaps (UIWorkstation.side_config side w) < 2 ^ 32)%Z ->
  Z.of_nat (length (SideAisleConfig.custom_gaps (UIWorkstation.side_config side w)))
    <> SideAisleConfig.required_gaps (UIWorkstation.side_config side w) ->
  exists c' w',
    updateAisleGaps i side c = Normal c'
    /\ workstations c' !! i = Some w'
    /\ let old := SideAisleConfig.custom_gaps (UIWorkstation.side_config side w) in
       let new := SideAisleConfig.custom_gaps (UIWorkstation.side_config side w') in
       let n := Z.to_nat (SideAisleConfig.required_gaps (UIWorkstation.side_config side w)) in
       new = take n old ++ replicate (n - length old) 50%float
       /\ length new = n
       /\ new <> old.
Proof.
  intros Hw Hreq Hne. eexists _, _. split; [by apply updateAisleGaps_spec|].
  split.
  - cbn. apply list_lookup_insert_eq. by eapply lookup_lt_Some.
  - cbv zeta. rewrite side_config_with_side_config. cbn.
    split; [done|]. split; [apply length_resized|].
    intros Heq. apply Hne. rewrite <- Heq at 1. rewrite length_resized.
    apply Z2Nat.id. unfold SideAisleConfig.required_gaps. lia.
Qed.

Lemma C3_witness :
  exists c' w',
    updateAisleGaps 0 Side.left one_default_workstation = Normal c'
    /\ workstations c' !! 0 = Some w'
    /\ SideAisleConfig.custom_gaps (UIWorkstation.side_config Side.left w')
       = take 1 [] ++ replicate (1 - 0) 50%float
    /\ length (SideAisleConfig.custom_gaps (UIWorkstation.side_config Side.left w')) = 1
    /\ SideAisleConfig.custom_gaps (UIWorkstation.side_config Side.left w') <> [].
Proof.
  apply (C3_mismatch_is_resized one_default_workstation 0 Side.left createDefaultWorkstation).
  - reflexivity.
  - vm_compute. reflexivity.
  - vm_compute. discriminate.
Defined.



End GapArrayClaims.

(** ** Rebuilding a side's gap array (workstation-config.component.ts) *)
Section ComponentGapArray.
Import WorkstationConfigComponent.

Lemma length_foldl_push {A : Type} (f : nat -> A) (acc : list A) (l : list nat) :
  length (foldl (fun (acc : list A) (i : nat) => acc ++ [f i]) acc l) = length acc + length l.
Proof.
  revert acc. induction l as [|i l IH]; intros acc; simpl; [lia|].
  rewrite IH, length_app. simpl. lia.
Qed.

(** After the gaps are re-initialised and written back, the side holds
    [num_aisles - 1] gaps, whatever its depth. *)
Lemma reinitialised_gap_count (c : t) :
  length (SideAisleConfig.custom_gaps (aisleConfig (onAisleConfigChange (initializeAisleGaps c))))
  = Z.to_nat (SideAisleConfig.num_aisles (aisleConfig c) - 1).
Proof.
  unfold onAisleConfigChange, initializeAisleGaps. cbn.
  rewrite length_fmap, length_foldl_push, length_seq. simpl. lia.
Qed.

Lemma reinitialised_counts_unchanged (c : t) :
  let c' := onAisleConfigChange (initializeAisleGaps c) in
  SideAisleConfig.num_aisles (aisleConfig c') = SideAisleConfig.num_aisles (aisleConfig c)
  /\ SideAisleConfig.depth (aisleConfig c') = SideAisleConfig.depth (aisleConfig c).
Proof. done. Qed.

(** For counts of at least one, the array this component writes has the
    documented length exactly when the side has depth one. *)
Lemma reinitialised_gap_count_correct_iff (c : t) :
  (1 <= SideAisleConfig.num_aisles (aisleConfig c))%Z ->
  (1 <= SideAisleConfig.depth (aisleConfig c))%Z ->
  let c' := onAisleConfigChange (initializeAisleGaps c) in
  Z.of_nat (length (SideAisleConfig.custom_gaps (aisleConfig c')))
    = SideAisleConfig.required_gaps (aisleConfig c')
  <-> SideAisleConfig.depth (aisleConfig c) = 1%Z.
Proof.
  intros Hn Hd. cbv zeta. rewrite reinitialised_gap_count.
  unfold SideAisleConfig.required_gaps.
  destruct (reinitialised_counts_unchanged c) as [-> ->].
  split; intros H; [nia | rewrite H; lia].
Qed.

End ComponentGapArray.

(** [updateAisleGaps] of the warehouse component establishes the invariant
    on the side it rebuilds. *)
Lemma updateAisleGaps_gap_invariant (c : WarehouseVisualizerComponent.t) (i : nat)
    (side : Side) (w : UIWorkstation.t) :
  WarehouseVisualizerComponent.workstations c !! i = Some w ->
  (SideAisleConfig.required_gaps (UIWorkstation.side_config side w) < 2 ^ 32)%Z ->
  exists c' w',
    WarehouseVisualizerComponent.updateAisleGaps i side c = JS.Normal c'
    /\ WarehouseVisualizerComponent.workstations c' !! i = Some w'
    /\ gap_invariant (UIWorkstation.side_config side w').
Proof.
  intros Hw Hreq. eexists _, _. split; [by apply updateAisleGaps_spec|].
  split.
  - cbn. apply list_lookup_insert_eq. by eapply lookup_lt_Some.
  - rewrite side_config_with_side_config. unfold gap_invariant. cbn.
    rewrite length_resized. apply Z2Nat.id.
    unfold SideAisleConfig.required_gaps. lia.
Qed.

(** C4 fails in workstation-config.component.ts.  A side with two aisles
    of depth two and its three gaps satisfies the invariant; once the
    component has re-initialised its gaps and written them back, the side
    holds one gap where three are required, and after [addAisleGap] two
    where five are required. *)
Theorem C4_component_gap_count_ignores_depth :
  let side :=
    SideAisleConfig.mk 4 4 2 2 [50; 50; 50]%float [] 100%float 100%float 100%float 100%float
                       "cm" in
  let c :=
    WorkstationConfigComponent.ngOnInit (WorkstationConfigComponent.mk 0 side [] [] []) in
  let changed :=
    WorkstationConfigComponent.aisleConfig
      (WorkstationConfigComponent.onAisleConfigChange
         (WorkstationConfigComponent.ngOnChanges side c)) in
  let added :=
    WorkstationConfigComponent.aisleConfig (WorkstationConfigComponent.addAisleGap c) in
  gap_invariant side
  /\ (SideAisleConfig.custom_gaps changed = [50%float]
      /\ SideAisleConfig.required_gaps changed = 3%Z
      /\ ~ gap_invariant changed)
  /\ (SideAisleConfig.custom_gaps added = [50%float; 50%float]
      /\ SideAisleConfig.required_gaps added = 5%Z
      /\ ~ gap_invariant added).
Proof.
  cbv zeta. repeat split; try (vm_compute; reflexivity); vm_compute; discriminate.
Qed.

(** ** The workstation configuration list *)
Section WorkstationConfigs.
Import JS WarehouseVisualizerComponent.

Lemma imap_index_seq {A B : Type} (f : nat -> A -> B) (g : B -> nat) (l : list A) :
  (forall i x, g (f i x) = i) -> forall k, g <$> imap (fun i => f (k + i)) l = seq k (length l).
Proof.
  intros Hg. induction l as [|x l IH]; intros k; [done|].
  cbn. rewrite Nat.add_0_r, Hg. f_equal.
  rewrite <- IH. f_equal. apply imap_ext. intros i y _. simpl. f_equal. lia.
Qed.

Lemma updateWorkstationConfigs_indexed (c : t) : indexed (updateWorkstationConfigs c).
Proof.
  unfold indexed, updateWorkstationConfigs. cbn.
  match goal with
  | |- _ <$> imap ?f _ = _ =>
      exact (imap_index_seq (fun i => f i) WorkstationConfig.workstation_index
                            (workstations c) (fun _ _ => eq_refl) 0)
  end.
Qed.

Lemma indexed_lookup (c : t) (i : nat) (cfg : WorkstationConfig.t) :
  indexed c -> workstation_configs c !! i = Some cfg ->
  WorkstationConfig.workstation_index cfg = i.
Proof.
  intros Hc Hi.
  assert ((WorkstationConfig.workstation_index <$> workstation_configs c) !! i
          = Some (WorkstationConfig.workstation_index cfg)) as Hl
    by (by rewrite list_lookup_fmap, Hi).
  rewrite Hc in Hl. apply lookup_seq in Hl as [-> _]. done.
Qed.

End WorkstationConfigs.

Section WorkstationConfigClaims.
Import JS WarehouseVisualizerComponent.

(** C8: after [updateWorkstationConfigs] the configuration list has one
    entry per workstation, the entry at position [i] carries
    [workstation_index = i], so the indices are 0, 1, 2, ... without gap
    or repetition; and every method that rebuilds the list (adjusting or
    initialising the workstations, adding or removing a pallet, resizing a
    gap array) leaves it in that state. *)
Theorem C8_workstation_index_contiguous (c : t) :
  let cfgs := workstation_configs (updateWorkstationConfigs c) in
  length cfgs = length (workstations c)
  /\ WorkstationConfig.workstation_index <$> cfgs = seq 0 (length cfgs)
  /\ (forall i cfg, cfgs !! i = Some cfg -> WorkstationConfig.workstation_index cfg = i)
  /\ NoDup (WorkstationConfig.workstation_index <$> cfgs)
  /\ (forall n, indexed (adjustWorkstationsArray n c))
  /\ indexed (initializeWorkstations c)
  /\ (forall i c', addPallet i c = Normal c' -> indexed c')
  /\ (forall i j, is_Some (workstations c !! i) -> indexed (removePallet i j c))
  /\ (forall i side c', updateAisleGaps i side c = Normal c' -> indexed c').
Proof.
  cbv zeta.
  assert (length (workstation_configs (updateWorkstationConfigs c)) = length (workstations c))
    as Hlen by (cbn; apply length_imap).
  pose proof (updateWorkstationConfigs_indexed c) as Hidx. unfold indexed in Hidx.
  split; [done|]. split; [by rewrite Hlen|].
  split; [intros i cfg; by apply indexed_lookup, updateWorkstationConfigs_indexed|].
  split; [rewrite Hidx; apply NoDup_seq|].
  split; [intros n; apply updateWorkstationConfigs_indexed|].
  split; [apply updateWorkstationConfigs_indexed|].
  split; [|split].
  - intros i c'. unfold addPallet.
    destruct (workstations c !! i); [|done].
    intros [= <-]. apply updateWorkstationConfigs_indexed.
  - intros i j [w Hw]. unfold removePallet. rewrite Hw.
    apply updateWorkstationConfigs_indexed.
  - intros i side c'. unfold updateAisleGaps.
    destruct (workstations c !! i); [|done].
    destruct (Array_fill _ _); [|done].
    intros [= <-]. apply updateWorkstationConfigs_indexed.
Qed.

Lemma C8_witness :
  WorkstationConfig.workstation_index
    <$> workstation_configs (updateWorkstationConfigs three_workstations)
  = [0; 1; 2].
Proof.
  destruct (C8_workstation_index_contiguous three_workstations) as (Hlen & Hseq & _).
  rewrite Hseq, Hlen. reflexivity.
Defined.

End WorkstationConfigClaims.

(** ** Pallet placement (visualization.component.ts) *)
Section PalletPlacement.
Import VisualizationComponent.
Local Open Scope Q_scope.



End PalletPlacement.

Section PalletPlacementClaims.
Import VisualizationComponent.
Local Open Scope Q_scope.




End PalletPlacementClaims.

(** ** Search identifiers (the database script) *)
Section SearchIds.
Import Schema.

Lemma created_consistent : consistent created.
Proof. split; cbn; constructor. Qed.

Lemma StronglySorted_snoc {A : Type} (R : relation A) (l : list A) (x : A) :
  StronglySorted R l -> Forall (fun y => R y x) l -> StronglySorted R (l ++ [x]).
Proof.
  intros Hl Hx. apply StronglySorted_app_2; [|done|repeat constructor].
  intros x1 x2 H1 H2. apply list_elem_of_singleton in H2 as ->.
  by eapply Forall_forall in Hx.
Qed.

Lemma execute_consistent (st : statement) (db db' : database) :
  consistent db -> execute st db = Some db' -> consistent db'.
Proof.
  intros [Hps Hpseq Hws Hwseq Hfk] Hex. destruct st; cbn in Hex.
  - case_bool_decide; simplify_eq. by split.
  - case_bool_decide; simplify_eq. split; cbn; try done.
    + apply StronglySorted_snoc; [done|]. eapply Forall_impl; [exact Hwseq|].
      intros w Hw. exact Hw.
    + apply Forall_app. split.
      * eapply Forall_impl; [exact Hwseq|]. intros w Hw. cbn in Hw. lia.
      * repeat constructor. cbn. lia.
    + eapply Forall_impl; [exact Hfk|]. intros p Hp. cbn in Hp.
      rewrite fmap_app. apply elem_of_app. by left.
  - destruct (bool_decide _ && _ && _ && _ && _) eqn:E; simplify_eq.
    repeat (apply andb_prop in E as [E ?]). apply bool_decide_eq_true in E.
    split; cbn; try done.
    + apply StronglySorted_snoc; [done|]. eapply Forall_impl; [exact Hpseq|].
      intros p Hp. exact Hp.
    + apply Forall_app. split.
      * eapply Forall_impl; [exact Hpseq|]. intros p Hp. cbn in Hp. lia.
      * repeat constructor. cbn. lia.
    + apply Forall_app. split; [done|]. by repeat constructor.
Qed.

Lemma run_consistent (script : list statement) (db db' : database) :
  consistent db -> run script db = Some db' -> consistent db'.
Proof.
  revert db. induction script as [|st script IH]; intros db Hdb Hrun; cbn in Hrun.
  - by simplify_eq.
  - destruct (execute st db) as [db1|] eqn:E; [|done].
    eapply IH; [|done]. by eapply execute_consistent.
Qed.

(** Rows with strictly increasing keys: a key identifies its row. *)
Lemma sorted_key_inj {A : Type} (key : A -> Z) (l : list A) (x y : A) :
  StronglySorted (fun a b => (key a < key b)%Z) l ->
  x ∈ l -> y ∈ l -> key x = key y -> x = y.
Proof.
  induction 1 as [|a l Hl IH Ha]; intros Hx Hy Hk.
  - by apply elem_of_nil in Hx.
  - rewrite Forall_forall in Ha.
    apply elem_of_cons in Hx as [->|Hx]; apply elem_of_cons in Hy as [->|Hy].
    + done.
    + specialize (Ha _ Hy). cbn in Ha. lia.
    + specialize (Ha _ Hx). cbn in Ha. lia.
    + by apply IH.
Qed.

Lemma sorted_key_NoDup {A : Type} (key : A -> Z) (l : list A) :
  StronglySorted (fun a b => (key a < key b)%Z) l -> NoDup l.
Proof.
  induction 1 as [|a l Hl IH Ha]; constructor; [|done].
  intros Hin. rewrite Forall_forall in Ha. specialize (Ha _ Hin). cbn in Ha. lia.
Qed.

Lemma sorted_key_filter {A : Type} (key : A -> Z) (P : A -> Prop)
    `{!forall x, Decision (P x)} (l : list A) :
  StronglySorted (fun a b => (key a < key b)%Z) l ->
  StronglySorted (fun a b => (key a < key b)%Z) (filter P l).
Proof.
  induction 1 as [|a l Hl IH Ha]; [constructor|].
  destruct (decide (P a)).
  - rewrite filter_cons_True by done. constructor; [done|].
    apply Forall_forall. intros x Hx. apply list_elem_of_filter in Hx as [_ Hx].
    rewrite Forall_forall in Ha. by apply Ha.
  - by rewrite filter_cons_False.
Qed.

(** In a table with a key, selecting on the key of one of its rows
    returns that row alone. *)
Lemma filter_key_singleton {A : Type} (key : A -> Z) (l : list A) (x : A) :
  StronglySorted (fun a b => (key a < key b)%Z) l -> x ∈ l ->
  filter (fun y => key y = key x) l = [x].
Proof.
  induction 1 as [|a l Hl IH Ha]; intros Hx.
  - by apply elem_of_nil in Hx.
  - rewrite Forall_forall in Ha. destruct (decide (key a = key x)) as [Heq|Hne].
    + rewrite filter_cons_True by done.
      assert (a = x) as ->.
      { apply elem_of_cons in Hx as [->|Hx]; [done|].
        specialize (Ha _ Hx). cbn in Ha. lia. }
      f_equal. apply elem_of_nil_inv. intros y Hy.
      apply list_elem_of_filter in Hy as [Hk Hy]. specialize (Ha _ Hy). cbn in Ha. lia.
    + rewrite filter_cons_False by done. apply IH.
      apply elem_of_cons in Hx as [->|Hx]; done.
Qed.

Lemma filter_fmap_comm {A B : Type} (f : A -> B) (P : B -> Prop)
    `{!forall y, Decision (P y)} (l : list A) :
  filter P (f <$> l) = f <$> filter (fun x => P (f x)) l.
Proof.
  induction l as [|x l IH]; [done|]. rewrite fmap_cons.
  destruct (decide (P (f x))).
  - rewrite !filter_cons_True by done. by rewrite fmap_cons, IH.
  - by rewrite !filter_cons_False.
Qed.

(** The position of an element among the selected ones is the number of
    selected elements before it. *)
Lemma filter_lookup_rank {A : Type} (P : A -> Prop) `{!forall x, Decision (P x)}
    (l : list A) (i : nat) (x : A) :
  l !! i = Some x -> P x ->
  filter P l !! length (filter P (take i l)) = Some x.
Proof.
  intros Hi HP.
  assert (filter P l = filter P (take i l) ++ x :: filter P (drop (S i) l)) as ->.
  { rewrite <- (filter_cons_True P x) by done. rewrite <- filter_app.
    by rewrite take_drop_middle. }
  rewrite lookup_app_r by lia. by rewrite Nat.sub_diag.
Qed.

Global Instance by_pallet_id_trans : Transitive by_pallet_id.
Proof. intros x y z. unfold by_pallet_id. lia. Qed.
Global Instance by_pallet_id_total : Total by_pallet_id.
Proof. intros x y. unfold by_pallet_id. lia. Qed.

Section Joined.
Context (g : warehouse_pallet_table.row -> joined) (Hg : forall p, (g p).1 = p).
Context (ps : list warehouse_pallet_table.row) (Hps : StronglySorted pallet_id_lt ps).

Lemma joined_sorted (l : list warehouse_pallet_table.row) :
  StronglySorted pallet_id_lt l -> StronglySorted by_pallet_id (g <$> l).
Proof using Hg.
  induction 1 as [|p l Hl IH Hp]; [constructor|].
  rewrite fmap_cons. constructor; [done|].
  apply Forall_fmap. eapply Forall_impl; [exact Hp|].
  intros q Hq. unfold by_pallet_id. cbn. rewrite !Hg. unfold pallet_id_lt in Hq. lia.
Qed.

Lemma merge_sort_joined (l : list warehouse_pallet_table.row) :
  StronglySorted pallet_id_lt l -> merge_sort by_pallet_id (g <$> l) = g <$> l.
Proof using Hg.
  intros Hl. apply (StronglySorted_unique_strong by_pallet_id).
  - intros x1 x2 H1 H2 H12 H21.
    rewrite merge_sort_Permutation in H1.
    apply list_elem_of_fmap in H1 as (p1 & -> & H1).
    apply list_elem_of_fmap in H2 as (p2 & -> & H2).
    unfold by_pallet_id in *. rewrite !Hg in *.
    f_equal. eapply (sorted_key_inj warehouse_pallet_table.pallet_id); [exact Hl|done..|lia].
  - apply StronglySorted_merge_sort; apply _.
  - by apply joined_sorted.
  - apply merge_sort_Permutation.
Qed.

Lemma partition_joined (k : Z * string * Z * Z * Z) :
  merge_sort by_pallet_id (filter (fun r => partition_key r = k) (g <$> ps))
  = g <$> filter (fun p => cell_key p = k) ps.
Proof using Hg Hps.
  rewrite filter_fmap_comm.
  rewrite merge_sort_joined
    by apply (sorted_key_filter warehouse_pallet_table.pallet_id), Hps.
  f_equal. apply list_filter_iff. intros p. unfold partition_key, cell_key.
  by rewrite Hg.
Qed.

(** The rows [ROW_NUMBER] returns: each pallet with its position among the
    pallets of its key. *)
Lemma ROW_NUMBER_joined (r : joined) (n : Z) :
  (r, n) ∈ ROW_NUMBER (g <$> ps) <->
  exists i p, filter (fun q => cell_key q = cell_key p) ps !! i = Some p
              /\ r = g p /\ n = Z.of_nat (S i).
Proof using Hg Hps.
  unfold ROW_NUMBER. rewrite list_elem_of_bind. split.
  - intros (k & Hin & Hk). rewrite partition_joined in Hin.
    apply elem_of_lookup_imap in Hin as (i & r' & Heq & Hi). simplify_eq.
    rewrite list_lookup_fmap in Hi.
    destruct (filter _ ps !! i) as [p|] eqn:Hp; simplify_eq/=.
    exists i, p. split; [|done].
    assert (cell_key p = k) as <-; [|done].
    apply list_elem_of_lookup_2, list_elem_of_filter in Hp. by destruct Hp.
  - intros (i & p & Hi & -> & ->). exists (cell_key p). split.
    + rewrite partition_joined. apply elem_of_lookup_imap.
      exists i, (g p). split; [done|]. by rewrite list_lookup_fmap, Hi.
    + apply elem_of_remove_dups, list_elem_of_fmap. exists (g p). split.
      * unfold partition_key, cell_key. by rewrite Hg.
      * apply list_elem_of_fmap_2. apply list_elem_of_lookup_2 in Hi.
        apply list_elem_of_filter in Hi. by destruct Hi.
Qed.

End Joined.

Lemma matching_workstation (db : database) (p : warehouse_pallet_table.row) :
  consistent db -> p ∈ pallets db ->
  filter (fun w => workstation_table.workstation_id w
                   = warehouse_pallet_table.workstation_id p) (workstations db)
  = [workstation_of db p]
  /\ workstation_of db p ∈ workstations db
  /\ workstation_table.workstation_id (workstation_of db p)
     = warehouse_pallet_table.workstation_id p.
Proof.
  intros Hdb Hp.
  pose proof (foreign_key db Hdb) as Hfk. rewrite Forall_forall in Hfk.
  apply Hfk, list_elem_of_fmap in Hp as (w & Hid & Hw).
  assert (filter (fun v => workstation_table.workstation_id v
                           = warehouse_pallet_table.workstation_id p) (workstations db)
          = [w]) as Hf.
  { rewrite Hid.
    apply (filter_key_singleton workstation_table.workstation_id); [|done].
    apply (workstations_sorted db Hdb). }
  unfold workstation_of. rewrite Hf. cbn. by rewrite Hid.
Qed.

(** Every pallet row joins with exactly one workstation row. *)
Lemma join_consistent (db : database) :
  consistent db -> join db = (fun p => (p, workstation_of db p)) <$> pallets db.
Proof.
  intros Hdb. unfold join.
  assert (forall l, (forall p, p ∈ l -> p ∈ pallets db) ->
            l ≫= (fun p =>
                    filter (fun w => workstation_table.workstation_id w
                                     = warehouse_pallet_table.workstation_id p)
                           (workstations db) ≫= fun w => [(p, w)])
            = (fun p => (p, workstation_of db p)) <$> l) as Hl.
  { induction l as [|p l IH]; intros Hin; [done|].
    rewrite bind_cons, fmap_cons, IH by (intros q Hq; apply Hin; by right).
    destruct (matching_workstation db p Hdb) as (-> & _); [apply Hin; by left|].
    done. }
  by apply Hl.
Qed.




Example two_pallets_in_one_cell_ids :
  (fun r => (pallet_id r, side r, search_id r))
    <$> search_ids (default created (run two_pallets_in_one_cell created))
  = [(2, "right", "WS1-R1-C1-F1-P1"); (1, "left", "WS1-R1-C1-F1-P1");
     (3, "left", "WS1-R1-C1-F1-P2")]%Z%string.
Proof. vm_compute. reflexivity. Qed.

(** C1 fails on the script's own sample data: pallet 1 (left side) and
    pallet 5 (right side) of workstation 1 are both at floor 0, row 0,
    column 0, and the query gives both the address WS1-R1-C1-F1-P1.  The
    side is part of the partition key but not of the address. *)
Theorem C1_sides_share_an_address :
  run sample_data created = Some sample_database
  /\ (fun r => (pallet_id r, side r, search_id r)) <$> search_ids sample_database
     = [(1, "left", "WS1-R1-C1-F1-P1"); (2, "left", "WS1-R1-C1-F2-P1");
        (3, "left", "WS1-R1-C1-F3-P1"); (4, "left", "WS1-R2-C2-F1-P1");
        (5, "right", "WS1-R1-C1-F1-P1"); (6, "right", "WS1-R4-C1-F4-P1");
        (7, "left", "WS2-R5-C1-F1-P1"); (8, "left", "WS2-R3-C2-F2-P1");
        (9, "right", "WS2-R5-C1-F3-P1"); (10, "right", "WS2-R4-C1-F2-P1")]%Z%string
  /\ ~ NoDup (search_id <$> search_ids sample_database).
Proof.
  split; [vm_compute; reflexivity|]. split; [vm_compute; reflexivity|].
  intros Hnd. apply (NoDup_lookup _ 0 4 "WS1-R1-C1-F1-P1"%string) in Hnd;
    [discriminate | vm_compute; reflexivity | vm_compute; reflexivity].
Qed.

End SearchIds.

(** ** Further properties of the unit tables *)
Section UnitTables.
Import JS.

(** Case analysis on whether [k] is one of the keys a table is built from. *)
Ltac by_key k :=
  repeat match goal with
         | |- context [<[?a := _]> _ !! k] =>
             destruct (decide (a = k)) as [<-|];
             [ vm_compute; reflexivity | rewrite !(lookup_insert_ne _ a k) by done ]
         end;
  rewrite ?lookup_singleton_ne by done.

(** X1: the two [getUnitConversionFactor] methods give the same factor for
    every unit whose lower-case form is not yd, and the factor of the
    warehouse component is the one [convertToCm] applies to the lower-cased
    unit; the two [convertToCm] methods are the same function. *)
Theorem X1_length_tables_agree (v : float) (u : string) :
  (toLowerCase u <> "yd"%string ->
   VisualizationComponent.getUnitConversionFactor u
   = WarehouseVisualizerComponent.getUnitConversionFactor u)
  /\ times v (WarehouseVisualizerComponent.getUnitConversionFactor u)
     = PalletConfigComponent.convertToCm v (toLowerCase u)
  /\ WorkstationConfigComponent.convertToCm v u = PalletConfigComponent.convertToCm v u.
Proof.
  split; [|done].
  intros Hyd.
  unfold VisualizationComponent.getUnitConversionFactor,
    WarehouseVisualizerComponent.getUnitConversionFactor, get.
  generalize dependent (toLowerCase u). intros k Hyd.
  by_key k. reflexivity.
Qed.

Lemma X1_witness :
  VisualizationComponent.getUnitConversionFactor "FT"
  = WarehouseVisualizerComponent.getUnitConversionFactor "FT".
Proof.
  apply (X1_length_tables_agree 1 "FT"). vm_compute. discriminate.
Defined.

(** X2: a value converted to the canonical unit and back is returned
    exactly when the unit is the canonical one or is not in the tables at
    all (and names no inherited property): for lengths every unit other
    than m, mm, ft and in, for weights every unit other than lbs. *)
Theorem X2_round_trip_exact (v : float) (u : string) :
  u ∉ Object_prototype_names ->
  (u ∉ ["m"; "mm"; "ft"; "in"]%string ->
   PalletConfigComponent.convertFromCm (PalletConfigComponent.convertToCm v u) u = v)
  /\ (u <> "lbs"%string ->
      PalletConfigComponent.convertFromKg (PalletConfigComponent.convertToKg v u) u = v).
Proof.
  intros Hp. split.
  - intros Hu. repeat (apply not_elem_of_cons in Hu as [? Hu]).
    destruct (decide (u = "cm"%string)) as [->|Hcm].
    + change (PrimFloat.mul (PrimFloat.mul v 1) 1 = v). by rewrite !float_mul_1_r.
    + rewrite (convertToCm_unknown v u);
        [|repeat (apply not_elem_of_cons; split; [done|]); apply not_elem_of_nil | done].
      unfold PalletConfigComponent.convertFromCm. apply times_absent; [|done].
      repeat (rewrite lookup_insert_ne by done). by apply lookup_singleton_ne.
  - intros Hu.
    destruct (decide (u = "kg"%string)) as [->|Hkg].
    + change (PrimFloat.mul (PrimFloat.mul v 1) 1 = v). by rewrite !float_mul_1_r.
    + rewrite (convertToKg_unknown v u);
        [|repeat (apply not_elem_of_cons; split; [done|]); apply not_elem_of_nil | done].
      unfold PalletConfigComponent.convertFromKg. apply times_absent; [|done].
      repeat (rewrite lookup_insert_ne by done). by apply lookup_singleton_ne.
Qed.

Lemma X2_witness :
  PalletConfigComponent.convertFromCm (PalletConfigComponent.convertToCm 0.014 "cm") "cm"
  = 0.014%float
  /\ PalletConfigComponent.convertFromKg (PalletConfigComponent.convertToKg 750 "g") "g"
     = 750%float.
Proof.
  split.
  - apply (X2_round_trip_exact 0.014 "cm"); compute_done.
  - apply (X2_round_trip_exact 750 "g"); [compute_done | vm_compute; discriminate].
Defined.

End UnitTables.

(** ** The pallet form (pallet-config.component.ts) *)
Section PalletForm.
Import JS PalletConfigComponent.

Lemma convertToCm_cm (v : float) : convertToCm v "cm" = v.
Proof. apply float_mul_1_r. Qed.
Lemma convertFromCm_cm (v : float) : convertFromCm v "cm" = v.
Proof. apply float_mul_1_r. Qed.
Lemma convertToKg_kg (v : float) : convertToKg v "kg" = v.
Proof. apply float_mul_1_r. Qed.
Lemma convertFromKg_kg (v : float) : convertFromKg v "kg" = v.
Proof. apply float_mul_1_r. Qed.

Lemma in_sync_onPalletChange (c : t) : in_sync (onPalletChange c).
Proof. by repeat split. Qed.

Lemma in_sync_ngOnInit (c : t) : in_sync (ngOnInit c).
Proof.
  unfold in_sync, ngOnInit. cbn -[convertToCm convertToKg].
  by rewrite !convertToCm_cm, convertToKg_kg.
Qed.

(** X3: the stored pallet and the displayed values agree after
    [ngOnInit], and after every method that writes the pallet:
    [onPalletChange], [onTypeChange] and [onUnitChange]. *)
Theorem X3_display_in_sync (c : t) :
  in_sync (ngOnInit c)
  /\ in_sync (onPalletChange c)
  /\ (forall type, in_sync (onTypeChange type c))
  /\ (forall field unit, in_sync (onUnitChange field unit c)).
Proof.
  split; [|split; [|split]].
  - apply in_sync_ngOnInit.
  - apply in_sync_onPalletChange.
  - intros type. apply in_sync_onPalletChange.
  - intros field unit. apply in_sync_onPalletChange.
Qed.

(** X4: with the display in sync, switching a field to its canonical unit
    (cm for the three lengths, kg for the weight), or naming a field the
    method does not know, leaves the stored pallet as it is; switching the
    length to another unit [u] stores the length converted to [u] and
    back, and leaves the other stored values as they are. *)
Theorem X4_unit_change_stored_values (c : t) (field u : string) :
  in_sync c ->
  ((field, u) ∈ [("length", "cm"); ("width", "cm"); ("height", "cm"); ("weight", "kg")]%string
   \/ field ∉ ["length"; "width"; "height"; "weight"]%string ->
   pallet (onUnitChange field u c) = pallet c)
  /\ (let p := pallet c in
      let p' := pallet (onUnitChange "length" u c) in
      PalletConfig.length_cm p' = convertToCm (convertFromCm (PalletConfig.length_cm p) u) u
      /\ PalletConfig.width_cm p' = PalletConfig.width_cm p
      /\ PalletConfig.height_cm p' = PalletConfig.height_cm p
      /\ PalletConfig.weight p' = PalletConfig.weight p).
Proof.
  intros (Hl & Hw & Hh & Hk). split.
  - intros [Hin | Hout].
    + repeat (apply elem_of_cons in Hin as [[= -> ->] | Hin]);
        [| | | | by apply elem_of_nil in Hin];
        unfold onUnitChange, onPalletChange;
        rewrite ?bool_decide_eq_false_2 by done; rewrite bool_decide_eq_true_2 by done;
        cbn -[convertToCm convertToKg convertFromCm convertFromKg];
        rewrite ?convertFromCm_cm, ?convertToCm_cm, ?convertFromKg_kg, ?convertToKg_kg;
        rewrite <- ?Hl, <- ?Hw, <- ?Hh, <- ?Hk; by destruct (pallet c).
    + repeat (apply not_elem_of_cons in Hout as [? Hout]).
      unfold onUnitChange. rewrite !bool_decide_eq_false_2 by done.
      unfold onPalletChange. cbn -[convertToCm convertToKg convertFromCm convertFromKg].
      rewrite <- ?Hl, <- ?Hw, <- ?Hh, <- ?Hk. by destruct (pallet c).
  - cbv zeta. unfold onUnitChange, onPalletChange.
    rewrite bool_decide_eq_true_2 by done.
    cbn -[convertToCm convertToKg convertFromCm convertFromKg].
    by rewrite <- ?Hw, <- ?Hh, <- ?Hk.
Qed.

Lemma X4_witness :
  let c := ngOnInit (mk new_pallet 4 4 2 1 "" "" "" "" 0 0 0 0 []) in
  pallet (onUnitChange "weight" "kg" c) = pallet c
  /\ PalletConfig.length_cm (pallet (onUnitChange "length" "ft" c))
     = convertToCm (convertFromCm 100 "ft") "ft".
Proof.
  cbv zeta.
  destruct (X4_unit_change_stored_values
              (ngOnInit (mk new_pallet 4 4 2 1 "" "" "" "" 0 0 0 0 [])) "weight" "kg")
    as [Hsame _]; [apply in_sync_ngOnInit|].
  destruct (X4_unit_change_stored_values
              (ngOnInit (mk new_pallet 4 4 2 1 "" "" "" "" 0 0 0 0 [])) "length" "ft")
    as [_ [Hlen _]]; [apply in_sync_ngOnInit|].
  split; [apply Hsame; left; compute_done | exact Hlen].
Defined.

Lemma options_spec (n k : Z) : k ∈ options n <-> (1 <= k <= n)%Z.
Proof.
  unfold options. rewrite list_elem_of_fmap. split.
  - intros (i & -> & Hi). apply elem_of_seq in Hi. lia.
  - intros Hk. exists (Z.to_nat (k - 1)). split; [lia|]. apply elem_of_seq. lia.
Qed.

Lemma options_lookup (n : Z) (i : nat) (k : Z) :
  options n !! i = Some k <-> (k = Z.of_nat i + 1 /\ Z.of_nat i < n)%Z.
Proof.
  unfold options. rewrite list_lookup_fmap. split.
  - destruct (seq 0 (Z.to_nat n) !! i) as [j|] eqn:E; [|done].
    apply lookup_seq in E as [-> ?]. intros [= <-]. lia.
  - intros [-> Hi]. rewrite (lookup_seq_lt 0) by lia. done.
Qed.

(** X5: a pallet form that is given the limits of a workstation offers the
    numbers 1, 2, ... in order, and among them every floor, row and depth
    of either side of the workstation and every column up to
    [num_aisles * depth]; a floor, row or depth it offers beyond 1 exists
    on one of the two sides. *)
Theorem X5_position_options (c : t) (w : UIWorkstation.t) :
  maxFloors c = WarehouseVisualizerComponent.getMaxFloors w ->
  maxRows c = WarehouseVisualizerComponent.getMaxRows w ->
  maxAisles c = WarehouseVisualizerComponent.getMaxAisles w ->
  maxDepth c = WarehouseVisualizerComponent.getMaxDepth w ->
  (forall (i : nat) (k : Z),
     (getFloorOptions c !! i = Some k -> k = Z.of_nat i + 1)
     /\ (getRowOptions c !! i = Some k -> k = Z.of_nat i + 1)
     /\ (getAisleOptions c !! i = Some k -> k = Z.of_nat i + 1)
     /\ (getDepthOptions c !! i = Some k -> k = Z.of_nat i + 1))%Z
  /\ (forall (side : Side) (k : Z),
        let s := UIWorkstation.side_config side w in
        ((1 <= k <= SideAisleConfig.num_floors s)%Z -> k ∈ getFloorOptions c)
        /\ ((1 <= k <= SideAisleConfig.num_rows s)%Z -> k ∈ getRowOptions c)
        /\ ((1 <= k <= SideAisleConfig.num_aisles s * SideAisleConfig.depth s)%Z ->
            k ∈ getAisleOptions c)
        /\ ((1 <= k <= SideAisleConfig.depth s)%Z -> k ∈ getDepthOptions c))
  /\ (forall k : Z,
        let offered (count : SideAisleConfig.t -> Z) :=
          k = 1%Z \/ exists side, (1 <= k <= count (UIWorkstation.side_config side w))%Z in
        (k ∈ getFloorOptions c -> offered SideAisleConfig.num_floors)
        /\ (k ∈ getRowOptions c -> offered SideAisleConfig.num_rows)
        /\ (k ∈ getDepthOptions c -> offered SideAisleConfig.depth)).
Proof.
  intros Hf Hr Ha Hd.
  unfold getFloorOptions, getRowOptions, getAisleOptions, getDepthOptions.
  rewrite Hf, Hr, Ha, Hd. clear Hf Hr Ha Hd.
  unfold WarehouseVisualizerComponent.getMaxFloors, WarehouseVisualizerComponent.getMaxRows,
    WarehouseVisualizerComponent.getMaxAisles, WarehouseVisualizerComponent.getMaxDepth,
    WarehouseVisualizerComponent.count_or_1.
  split; [|split].
  - intros i k. repeat split; intros H; by apply options_lookup in H as [-> _].
  - intros side k. cbv zeta. rewrite !options_spec.
    destruct side; cbn [UIWorkstation.side_config];
      repeat split; try lia;
      repeat case_match; rewrite ?Z.eqb_eq, ?Z.eqb_neq in *; nia.
  - intros k. cbv zeta. rewrite !options_spec.
    repeat split; intros [H1 Hk];
      apply Z.max_le in Hk as [Hk|Hk];
      (case_match; rewrite ?Z.eqb_eq, ?Z.eqb_neq in *;
       [left; lia|]);
      right; [exists Side.left | exists Side.right | exists Side.left | exists Side.right
             | exists Side.left | exists Side.right]; cbn; lia.
Qed.

Lemma X5_witness :
  let w := WarehouseVisualizerComponent.createDefaultWorkstation in
  let c := mk new_pallet 4 4 2 1 "cm" "cm" "cm" "kg" 0 0 0 0 [] in
  (forall (i : nat) (k : Z), getFloorOptions c !! i = Some k -> k = Z.of_nat i + 1)%Z
  /\ 4%Z ∈ getFloorOptions c.
Proof.
  cbv zeta.
  destruct (X5_position_options
              (mk new_pallet 4 4 2 1 "cm" "cm" "cm" "kg" 0 0 0 0 [])
              WarehouseVisualizerComponent.createDefaultWorkstation)
    as (Hord & Hall & _); [reflexivity..|].
  split.
  - intros i k. apply (Hord i k).
  - apply (Hall Side.left 4%Z). cbn. lia.
Defined.

(** X6: for every type that does not name a property inherited from
    [Object.prototype], the colour [onTypeChange] stores with the type is
    the colour the warehouse component's [palletColors] table gives it, so
    that [updateWorkstationConfigs] publishes the pallet with the colour
    the form shows; the type is stored as given, and the pallet emitted is
    the stored one. *)
Theorem X6_type_colour (c : t) (type : string) :
  type ∉ Object_prototype_names ->
  let c' := onTypeChange type c in
  PalletConfig.type (pallet c') = type
  /\ PalletConfig.color (pallet c')
     = or_else falsy_string (get WarehouseVisualizerComponent.palletColors type) "#8B4513"
  /\ last (emitted c') = Some (palletChange (pallet c')).
Proof.
  intros Hproto. cbv zeta. split; [done|]. split; [|apply last_snoc].
  unfold onTypeChange, onPalletChange. cbn [pallet with_pallet emit PalletConfig.color].
  unfold get, WarehouseVisualizerComponent.palletColors.
  destruct (decide (type = "wooden"%string)) as [->|Hw]; [done|].
  destruct (decide (type = "plastic"%string)) as [->|Hp]; [done|].
  destruct (decide (type = "metal"%string)) as [->|Hm]; [done|].
  rewrite !lookup_insert_ne, lookup_singleton_ne by done.
  rewrite bool_decide_eq_false_2 by done.
  unfold palletTypes. cbn [List.find fst snd].
  by rewrite !bool_decide_eq_false_2 by done.
Qed.

Lemma X6_witness :
  PalletConfig.color (pallet (onTypeChange "plastic" (mk new_pallet 4 4 2 1 "cm" "cm" "cm" "kg" 0 0 0 0 [])))
  = Val "#1E90FF"%string.
Proof.
  apply (X6_type_colour (mk new_pallet 4 4 2 1 "cm" "cm" "cm" "kg" 0 0 0 0 []) "plastic").
  compute_done.
Defined.

End PalletForm.

(** ** The gap editor (workstation-config.component.ts) *)
Section GapEditor.
Import JS WorkstationConfigComponent.

Lemma gap_convertToCm_cm (v : float) : convertToCm v "cm" = v.
Proof. apply float_mul_1_r. Qed.

Lemma foldl_push_fmap {A : Type} (f : nat -> A) (acc : list A) (l : list nat) :
  foldl (fun (acc : list A) (i : nat) => acc ++ [f i]) acc l = acc ++ (f <$> l).
Proof.
  revert acc. induction l as [|i l IH]; intros acc; simpl.
  - by rewrite app_nil_r.
  - by rewrite IH, <- app_assoc.
Qed.

Lemma initializeAisleGaps_aisleGaps (c : t) :
  aisleGaps (initializeAisleGaps c)
  = (fun i => GapInput.mk (gap_or_default (SideAisleConfig.custom_gaps (aisleConfig c)) i)
                          (string_or (SideAisleConfig.wall_gap_unit (aisleConfig c)) "cm"))
    <$> seq 0 (Z.to_nat (SideAisleConfig.num_aisles (aisleConfig c) - 1)).
Proof.
  unfold initializeAisleGaps. cbn [aisleGaps with_aisleGaps].
  by rewrite foldl_push_fmap.
Qed.

Lemma reinitialised_gaps (c : t) :
  SideAisleConfig.custom_gaps (aisleConfig (onAisleConfigChange (initializeAisleGaps c)))
  = (fun i => convertToCm (gap_or_default (SideAisleConfig.custom_gaps (aisleConfig c)) i)
                          (string_or (SideAisleConfig.wall_gap_unit (aisleConfig c)) "cm"))
    <$> seq 0 (Z.to_nat (SideAisleConfig.num_aisles (aisleConfig c) - 1)).
Proof.
  unfold onAisleConfigChange.
  cbn [aisleConfig emit with_aisleConfig SideAisleConfig.custom_gaps
       SideAisleConfig.with_custom_gaps].
  rewrite initializeAisleGaps_aisleGaps, <- list_fmap_compose.
  by apply list_fmap_ext.
Qed.

(** X7: after the gaps are re-initialised and written back
    ([ngOnInit] or [ngOnChanges], then [onAisleConfigChange]), the gap at
    each index below [num_aisles - 1] is the old gap at that index, or 20
    where the old one is missing or falsy, multiplied by the factor of the
    side's [wall_gap_unit].  With the unit cm a gap that is kept is
    unchanged and a missing one becomes 20; with the unit m the stored
    value is multiplied by 100, again on every re-initialisation. *)
Theorem X7_reinitialised_gap_values (c : t) :
  let old := SideAisleConfig.custom_gaps (aisleConfig c) in
  let unit := string_or (SideAisleConfig.wall_gap_unit (aisleConfig c)) "cm" in
  let n := Z.to_nat (SideAisleConfig.num_aisles (aisleConfig c) - 1) in
  let new := SideAisleConfig.custom_gaps
               (aisleConfig (onAisleConfigChange (initializeAisleGaps c))) in
  (forall i, i < n -> new !! i = Some (convertToCm (gap_or_default old i) unit))
  /\ (unit = "cm"%string ->
      (forall i g, i < n -> old !! i = Some g -> kept_gap g -> new !! i = Some g)
      /\ (forall i, length old <= i < n -> new !! i = Some 20%float))
  /\ (unit = "m"%string ->
      forall i g, i < n -> old !! i = Some g -> kept_gap g ->
                  new !! i = Some (g * 100)%float).
Proof.
  cbv zeta. rewrite reinitialised_gaps.
  assert (forall i, i < Z.to_nat (SideAisleConfig.num_aisles (aisleConfig c) - 1) ->
            ((fun i => convertToCm (gap_or_default (SideAisleConfig.custom_gaps (aisleConfig c)) i)
                         (string_or (SideAisleConfig.wall_gap_unit (aisleConfig c)) "cm"))
               <$> seq 0 (Z.to_nat (SideAisleConfig.num_aisles (aisleConfig c) - 1))) !! i
            = Some (convertToCm (gap_or_default (SideAisleConfig.custom_gaps (aisleConfig c)) i)
                      (string_or (SideAisleConfig.wall_gap_unit (aisleConfig c)) "cm"))) as Hlk.
  { intros i Hi. by rewrite list_lookup_fmap, (lookup_seq_lt 0) by done. }
  split; [done|]. split.
  - intros Hu. split.
    + intros i g Hi Hg Hk. rewrite Hlk, Hu, gap_convertToCm_cm by done.
      unfold gap_or_default. by rewrite Hg, Hk.
    + intros i [Hlo Hi]. rewrite Hlk, Hu, gap_convertToCm_cm by done.
      unfold gap_or_default. by rewrite (lookup_ge_None_2 _ _ Hlo).
  - intros Hu i g Hi Hg Hk. rewrite Hlk, Hu by done.
    unfold gap_or_default. by rewrite Hg, Hk.
Qed.

Lemma reinitialised_kept (gaps : list float) (n : nat) :
  Forall kept_gap gaps ->
  (fun i => convertToCm (gap_or_default gaps i) "cm") <$> seq 0 n
  = take n gaps ++ replicate (n - length gaps) 20%float.
Proof.
  intros Hk. apply list_eq. intros i.
  rewrite list_lookup_fmap.
  destruct (decide (i < n)) as [Hi|Hi].
  - rewrite (lookup_seq_lt 0) by done. cbn -[convertToCm]. rewrite gap_convertToCm_cm.
    unfold gap_or_default.
    destruct (gaps !! i) as [g|] eqn:Hg.
    + rewrite lookup_app_l by (rewrite length_take; apply lookup_lt_Some in Hg; lia).
      rewrite lookup_take_lt, Hg by done.
      eapply Forall_lookup in Hk; [|done]. by rewrite Hk.
    + apply lookup_ge_None in Hg.
      rewrite lookup_app_r by (rewrite length_take; lia).
      symmetry. f_equal. apply lookup_replicate_2. rewrite length_take. lia.
  - rewrite (lookup_ge_None_2 (seq 0 n)) by (rewrite length_seq; lia). cbn.
    symmetry. apply lookup_ge_None_2.
    rewrite length_app, length_take, length_replicate. lia.
Qed.

(** X8: on a side with at least one aisle, the unit cm, [num_aisles - 1]
    gaps and no falsy gap, [addAisleGap] appends one gap of 20 and counts
    one aisle more, and [removeAisleGap] after it restores the side
    exactly. *)
Theorem X8_add_then_remove_gap (c : t) :
  (0 < SideAisleConfig.num_aisles (aisleConfig c))%Z ->
  string_or (SideAisleConfig.wall_gap_unit (aisleConfig c)) "cm" = "cm"%string ->
  length (SideAisleConfig.custom_gaps (aisleConfig c))
  = Z.to_nat (SideAisleConfig.num_aisles (aisleConfig c) - 1) ->
  Forall kept_gap (SideAisleConfig.custom_gaps (aisleConfig c)) ->
  let added := aisleConfig (addAisleGap c) in
  SideAisleConfig.num_aisles added = (SideAisleConfig.num_aisles (aisleConfig c) + 1)%Z
  /\ SideAisleConfig.custom_gaps added
     = SideAisleConfig.custom_gaps (aisleConfig c) ++ [20%float]
  /\ aisleConfig (removeAisleGap (addAisleGap c)) = aisleConfig c.
Proof.
  intros Hn Hu Hlen Hk. cbv zeta.
  assert (addAisleGap c
          = onAisleConfigChange
              (initializeAisleGaps
                 (with_aisleConfig
                    (SideAisleConfig.with_num_aisles
                       (SideAisleConfig.num_aisles (aisleConfig c) + 1) (aisleConfig c)) c)))
    as Hadd.
  { unfold addAisleGap. apply Z.ltb_lt in Hn. by rewrite Hn. }
  assert (SideAisleConfig.custom_gaps (aisleConfig (addAisleGap c))
          = SideAisleConfig.custom_gaps (aisleConfig c) ++ [20%float]) as Hgaps.
  { rewrite Hadd, reinitialised_gaps.
    cbn [aisleConfig with_aisleConfig SideAisleConfig.with_num_aisles
         SideAisleConfig.custom_gaps SideAisleConfig.wall_gap_unit SideAisleConfig.num_aisles].
    rewrite Hu, reinitialised_kept by done.
    rewrite take_ge by lia.
    by replace (Z.to_nat (SideAisleConfig.num_aisles (aisleConfig c) + 1 - 1)
                - length (SideAisleConfig.custom_gaps (aisleConfig c))) with 1 by lia. }
  split; [by rewrite Hadd|]. split; [done|].
  unfold removeAisleGap.
  assert (SideAisleConfig.num_aisles (aisleConfig (addAisleGap c))
          = (SideAisleConfig.num_aisles (aisleConfig c) + 1)%Z) as Hna by (by rewrite Hadd).
  assert (SideAisleConfig.wall_gap_unit (aisleConfig (addAisleGap c))
          = SideAisleConfig.wall_gap_unit (aisleConfig c)) as Hwu by (by rewrite Hadd).
  rewrite Hna.
  destruct (Z.ltb_spec 1 (SideAisleConfig.num_aisles (aisleConfig c) + 1)) as [_|]; [|lia].
  set (c1 := with_aisleConfig _ _).
  pose proof (reinitialised_gaps c1) as Hre.
  subst c1.
  cbn [aisleConfig with_aisleConfig SideAisleConfig.with_num_aisles
       SideAisleConfig.custom_gaps SideAisleConfig.wall_gap_unit SideAisleConfig.num_aisles]
    in Hre.
  rewrite Hwu, Hu, Hgaps, reinitialised_kept in Hre.
  2:{ apply Forall_app. split; [done|]. by repeat constructor. }
  replace (Z.to_nat (SideAisleConfig.num_aisles (aisleConfig c) + 1 - 1 - 1))
    with (length (SideAisleConfig.custom_gaps (aisleConfig c))) in Hre by lia.
  rewrite take_app_length, length_app in Hre. cbn [length] in Hre.
  replace (length (SideAisleConfig.custom_gaps (aisleConfig c))
           - (length (SideAisleConfig.custom_gaps (aisleConfig c)) + 1)) with 0 in Hre by lia.
  cbn [replicate] in Hre. rewrite app_nil_r in Hre.
  revert Hre. unfold onAisleConfigChange.
  cbn [aisleConfig emit with_aisleConfig SideAisleConfig.custom_gaps
       SideAisleConfig.with_custom_gaps].
  intros ->.
  rewrite Hadd.
  unfold onAisleConfigChange, initializeAisleGaps.
  cbn [aisleConfig emit with_aisleConfig with_aisleGaps SideAisleConfig.custom_gaps
       SideAisleConfig.with_custom_gaps SideAisleConfig.with_num_aisles
       SideAisleConfig.num_floors SideAisleConfig.num_rows SideAisleConfig.num_aisles
       SideAisleConfig.depth SideAisleConfig.deep_gaps SideAisleConfig.gap_front
       SideAisleConfig.gap_back SideAisleConfig.gap_left SideAisleConfig.gap_right
       SideAisleConfig.wall_gap_unit].
  replace (SideAisleConfig.num_aisles (aisleConfig c) + 1 - 1)%Z
    with (SideAisleConfig.num_aisles (aisleConfig c)) by lia.
  by destruct (aisleConfig c).
Qed.

Lemma X8_witness :
  let c := mk 0 side_with_two_gaps [] [] [] in
  SideAisleConfig.num_aisles (aisleConfig (addAisleGap c)) = 4%Z
  /\ SideAisleConfig.custom_gaps (aisleConfig (addAisleGap c)) = [30; 40; 20]%float
  /\ aisleConfig (removeAisleGap (addAisleGap c)) = side_with_two_gaps.
Proof.
  apply (X8_add_then_remove_gap (mk 0 side_with_two_gaps [] [] [])).
  - reflexivity.
  - reflexivity.
  - reflexivity.
  - repeat constructor.
Defined.

(** X9: [updateAisleCount] writes back the gaps it leaves in the editor.
    For [num_aisles] of at least one it leaves [num_aisles - 1] gaps: the
    gaps the editor had at those indices, then gaps of 20 in the side's
    unit.  For [num_aisles] of zero or less it does not empty the editor:
    [slice] is called with a negative end, and only the last
    [1 - num_aisles] gaps are dropped. *)
Theorem X9_updateAisleCount (c : t) :
  let n := SideAisleConfig.num_aisles (aisleConfig c) in
  let c' := updateAisleCount c in
  SideAisleConfig.custom_gaps (aisleConfig c')
  = (fun gap => convertToCm (GapInput.value gap) (GapInput.unit gap)) <$> aisleGaps c'
  /\ ((1 <= n)%Z ->
      length (aisleGaps c') = Z.to_nat (n - 1)
      /\ (forall i, i < length (aisleGaps c) -> i < Z.to_nat (n - 1) ->
                    aisleGaps c' !! i = aisleGaps c !! i)
      /\ (forall i, length (aisleGaps c) <= i < Z.to_nat (n - 1) ->
                    aisleGaps c' !! i
                    = Some (GapInput.mk 20%float
                              (string_or (SideAisleConfig.wall_gap_unit (aisleConfig c)) "cm"))))
  /\ ((n <= 0)%Z ->
      aisleGaps c' = take (length (aisleGaps c) - Z.to_nat (1 - n)) (aisleGaps c)).
Proof.
  cbv zeta. unfold updateAisleCount.
  set (n := SideAisleConfig.num_aisles (aisleConfig c)).
  set (len := length (aisleGaps c)).
  split; [done|].
  destruct (Z.ltb_spec (Z.of_nat len + 1) n) as [Hgrow|Hle].
  - cbn [aisleGaps with_aisleGaps onAisleConfigChange emit with_aisleConfig].
    rewrite foldl_push_fmap. split; [|lia]. intros _.
    split; [|split].
    + rewrite length_app, length_fmap, length_seq. fold len. lia.
    + intros i Hi _. by rewrite lookup_app_l.
    + intros i [Hlo Hhi]. rewrite lookup_app_r by done.
      rewrite list_lookup_fmap.
      rewrite lookup_seq_lt by (fold len; lia). done.
  - destruct (Z.ltb_spec n (Z.of_nat len + 1)) as [Hshrink|Hsame].
    + cbn [aisleGaps with_aisleGaps onAisleConfigChange emit with_aisleConfig].
      unfold slice_0. fold len.
      destruct (Z.ltb_spec (n - 1) 0) as [Hneg|Hpos].
      * split; [lia|]. intros _. f_equal. lia.
      * split; [|lia]. intros _. split; [|split].
        -- rewrite length_take. fold len. lia.
        -- intros i _ Hi. by apply lookup_take_lt.
        -- intros i. lia.
    + cbn [aisleGaps with_aisleGaps onAisleConfigChange emit with_aisleConfig].
      split; [|lia]. intros _. split; [|split].
      * fold len. lia.
      * done.
      * intros i. lia.
Qed.

Lemma X9_witness :
  let c := mk 0 (SideAisleConfig.with_num_aisles 0 side_with_two_gaps) []
              [GapInput.mk 30 "cm"; GapInput.mk 40 "cm"] [] in
  aisleGaps (updateAisleCount c) = [GapInput.mk 30 "cm"].
Proof.
  cbv zeta.
  destruct (X9_updateAisleCount
              (mk 0 (SideAisleConfig.with_num_aisles 0 side_with_two_gaps) []
                  [GapInput.mk 30 "cm"; GapInput.mk 40 "cm"] [])) as (_ & _ & H).
  apply H. reflexivity.
Defined.

(** X10: [getTotalGapsWidth] is the sum, taken from the left in binary64
    and starting from 0, of the gaps [onAisleConfigChange] writes to the
    side: the total the editor shows is the total of the published
    values. *)
Theorem X10_total_of_published_gaps (c : t) :
  getTotalGapsWidth c
  = foldl PrimFloat.add 0%float
          (SideAisleConfig.custom_gaps (aisleConfig (onAisleConfigChange c))).
Proof.
  unfold getTotalGapsWidth, onAisleConfigChange.
  cbn [aisleConfig emit with_aisleConfig SideAisleConfig.custom_gaps
       SideAisleConfig.with_custom_gaps].
  rewrite foldl_fmap.
  case_bool_decide as Hlen; [|done].
  by apply nil_length_inv in Hlen as ->.
Qed.

End GapEditor.

(** ** Editing the workstations (warehouse.component.ts) *)
Section Workstations.
Import JS WarehouseVisualizerComponent.

Lemma updateAisleGaps_missing (c : t) (i : nat) (side : Side) :
  workstations c !! i = None -> updateAisleGaps i side c = Throw TypeError.
Proof. intros Hw. unfold updateAisleGaps. by rewrite Hw. Qed.

Lemma updateAisleGaps_too_long (c : t) (i : nat) (side : Side) (w : UIWorkstation.t) :
  workstations c !! i = Some w ->
  (2 ^ 32 <= SideAisleConfig.required_gaps (UIWorkstation.side_config side w))%Z ->
  updateAisleGaps i side c = Throw RangeError.
Proof.
  intros Hw Hreq. unfold updateAisleGaps. rewrite Hw.
  fold (SideAisleConfig.required_gaps (UIWorkstation.side_config side w)).
  unfold Array_fill.
  destruct (Z.ltb_spec (SideAisleConfig.required_gaps (UIWorkstation.side_config side w))
                       (2 ^ 32)) as [|_]; [lia|].
  by rewrite andb_false_r.
Qed.

(** X11: [updateAisleGaps] (and [onSideConfigChange], which only calls
    it) raises a TypeError exactly when the workstation does not exist, a
    RangeError exactly when it exists and the side requires 2^32 gaps or
    more, and returns normally in the remaining case. *)
Theorem X11_updateAisleGaps_outcome (c : t) (i : nat) (side : Side) :
  let required w := SideAisleConfig.required_gaps (UIWorkstation.side_config side w) in
  onSideConfigChange i side c = updateAisleGaps i side c
  /\ (updateAisleGaps i side c = Throw TypeError <-> workstations c !! i = None)
  /\ (updateAisleGaps i side c = Throw RangeError
      <-> exists w, workstations c !! i = Some w /\ (2 ^ 32 <= required w)%Z)
  /\ ((exists c', updateAisleGaps i side c = Normal c')
      <-> exists w, workstations c !! i = Some w /\ (required w < 2 ^ 32)%Z).
Proof.
  cbv zeta. split; [done|].
  destruct (workstations c !! i) as [w|] eqn:Hw.
  - destruct (Z.lt_ge_cases
                (SideAisleConfig.required_gaps (UIWorkstation.side_config side w)) (2 ^ 32))
      as [Hlt|Hge].
    + rewrite (updateAisleGaps_spec c i side w Hw Hlt). split; [|split].
      * split; done.
      * split; [done|]. intros (w' & [= <-] & ?). lia.
      * split; [by exists w | by eexists].
    + rewrite (updateAisleGaps_too_long c i side w Hw Hge). split; [|split].
      * split; done.
      * split; [by exists w | done].
      * split; [by intros [? ?] | intros (w' & [= <-] & ?); lia].
  - rewrite (updateAisleGaps_missing c i side Hw). split; [|split].
    + split; done.
    + split; [done | by intros (? & ? & _)].
    + split; [by intros [? ?] | by intros (? & ? & _)].
Qed.

Lemma resized_same_length (gaps : list float) :
  resized gaps (length gaps) = gaps.
Proof. unfold resized. by rewrite take_ge, Nat.sub_diag, app_nil_r. Qed.

Lemma with_side_config_idemp (side : Side) (s : SideAisleConfig.t) (w : UIWorkstation.t) :
  UIWorkstation.with_side_config side s (UIWorkstation.with_side_config side s w)
  = UIWorkstation.with_side_config side s w.
Proof. by destruct side. Qed.

(** X12: [updateAisleGaps] is idempotent: run again on the state it
    returned, for the same workstation and side, it returns that state. *)
Theorem X12_updateAisleGaps_idempotent (c c' : t) (i : nat) (side : Side) :
  updateAisleGaps i side c = Normal c' ->
  updateAisleGaps i side c' = Normal c'.
Proof.
  intros Hrun.
  destruct (workstations c !! i) as [w|] eqn:Hw;
    [|by rewrite updateAisleGaps_missing in Hrun].
  destruct (Z.lt_ge_cases
              (SideAisleConfig.required_gaps (UIWorkstation.side_config side w)) (2 ^ 32))
    as [Hlt|Hge]; [|by rewrite (updateAisleGaps_too_long c i side w) in Hrun].
  rewrite (updateAisleGaps_spec c i side w Hw Hlt) in Hrun.
  injection Hrun as <-.
  set (sc := UIWorkstation.side_config side w).
  set (new := resized (SideAisleConfig.custom_gaps sc)
                      (Z.to_nat (SideAisleConfig.required_gaps sc))).
  set (w' := UIWorkstation.with_side_config side (SideAisleConfig.with_custom_gaps new sc) w).
  assert (i < length (workstations c)) as Hi by (by eapply lookup_lt_Some).
  assert (workstations (updateWorkstationConfigs
                          (with_workstations (<[i := w']> (workstations c)) c)) !! i
          = Some w') as Hw'.
  { cbn. by apply list_lookup_insert_eq. }
  assert (SideAisleConfig.required_gaps (UIWorkstation.side_config side w')
          = SideAisleConfig.required_gaps sc) as Hreq.
  { unfold w'. by rewrite side_config_with_side_config. }
  rewrite (updateAisleGaps_spec _ i side w' Hw') by (by rewrite Hreq).
  f_equal. rewrite Hreq.
  assert (UIWorkstation.side_config side w' = SideAisleConfig.with_custom_gaps new sc) as ->.
  { unfold w'. by rewrite side_config_with_side_config. }
  cbn [SideAisleConfig.custom_gaps SideAisleConfig.with_custom_gaps].
  replace (Z.to_nat (SideAisleConfig.required_gaps sc)) with (length new)
    by (unfold new; apply length_resized).
  rewrite resized_same_length.
  assert (UIWorkstation.with_side_config side
            (SideAisleConfig.with_custom_gaps new (SideAisleConfig.with_custom_gaps new sc)) w'
          = w') as ->.
  { unfold w'. apply with_side_config_idemp. }
  unfold updateWorkstationConfigs, with_workstations, with_workstation_configs.
  cbn [workstations num_workstations workstation_configs previousNumWorkstations].
  by rewrite list_insert_insert_eq.
Qed.

Lemma X12_witness :
  exists c',
    updateAisleGaps 0 Side.left one_overfull_workstation = Normal c'
    /\ updateAisleGaps 0 Side.left c' = Normal c'.
Proof.
  eexists. split; [vm_compute; reflexivity|].
  apply (X12_updateAisleGaps_idempotent one_overfull_workstation _ 0 Side.left).
  vm_compute. reflexivity.
Defined.

(** *** Pallets *)

Lemma total_from (ws : list UIWorkstation.t) (a : Z) :
  foldl (fun (total : Z) (w : UIWorkstation.t) =>
           (total + Z.of_nat (length (UIWorkstation.pallets w)))%Z) a ws
  = (a + foldl (fun (total : Z) (w : UIWorkstation.t) =>
                  (total + Z.of_nat (length (UIWorkstation.pallets w)))%Z) 0 ws)%Z.
Proof.
  revert a. induction ws as [|w ws IH]; intros a; simpl; [lia|].
  rewrite (IH (a + _)%Z), (IH (0 + _)%Z). lia.
Qed.

(** Replacing one workstation changes the total by the difference of the
    two pallet counts. *)
Lemma getTotalPallets_insert (c : t) (i : nat) (w w' : UIWorkstation.t) :
  workstations c !! i = Some w ->
  getTotalPallets (updateWorkstationConfigs (with_workstations (<[i := w']> (workstations c)) c))
  = (getTotalPallets c - Z.of_nat (length (UIWorkstation.pallets w))
     + Z.of_nat (length (UIWorkstation.pallets w')))%Z.
Proof.
  intros Hw. unfold getTotalPallets. cbn [workstations updateWorkstationConfigs
    with_workstations with_workstation_configs].
  rewrite <- (take_drop_middle _ _ _ Hw) at 2.
  rewrite insert_take_drop by (by eapply lookup_lt_Some).
  rewrite !foldl_app. cbn [foldl].
  rewrite (total_from (drop _ _)), (total_from (drop _ _) (_ + Z.of_nat (length (UIWorkstation.pallets w)))%Z).
  lia.
Qed.

Lemma delete_snoc {A : Type} (l : list A) (x : A) : delete (length l) (l ++ [x]) = l.
Proof. induction l as [|y l IH]; [done|]. cbn. by f_equal. Qed.

Lemma published_pallet (c : t) (i j : nat) (w : UIWorkstation.t) (p : PalletConfig.t) :
  workstations c !! i = Some w -> UIWorkstation.pallets w !! j = Some p ->
  exists cfg,
    workstation_configs (updateWorkstationConfigs c) !! i = Some cfg
    /\ WorkstationConfig.pallet_configs cfg !! j
       = Some (PalletConfig.with_color
                 (or_else falsy_string (get palletColors (PalletConfig.type p)) "#8B4513") p).
Proof.
  intros Hw Hp. eexists. split.
  - cbn. rewrite list_lookup_imap, Hw. reflexivity.
  - cbn [WorkstationConfig.pallet_configs]. by rewrite list_lookup_fmap, Hp.
Qed.

(** X13: [addPallet] raises a TypeError exactly when the workstation does
    not exist.  Otherwise it appends one pallet, the same wooden one each
    time, to that workstation and to no other, the total number of pallets
    grows by one, the pallet is published in the workstation's
    configuration, and [removePallet] at the index of the new pallet
    restores the workstations. *)
Theorem X13_add_then_remove_pallet (c : t) (i : nat) :
  (addPallet i c = Throw TypeError <-> workstations c !! i = None)
  /\ (forall w, workstations c !! i = Some w ->
        exists c',
          addPallet i c = Normal c'
          /\ workstations c'
             = <[i := UIWorkstation.with_pallets (UIWorkstation.pallets w ++ [new_pallet]) w]>
                 (workstations c)
          /\ getTotalPallets c' = (getTotalPallets c + 1)%Z
          /\ (exists cfg,
                workstation_configs c' !! i = Some cfg
                /\ WorkstationConfig.pallet_configs cfg !! length (UIWorkstation.pallets w)
                   = Some new_pallet)
          /\ workstations (removePallet i (length (UIWorkstation.pallets w)) c')
             = workstations c).
Proof.
  split.
  - unfold addPallet. destruct (workstations c !! i); split; done.
  - intros w Hw. eexists. split; [unfold addPallet; by rewrite Hw|].
    assert (i < length (workstations c)) as Hi by (by eapply lookup_lt_Some).
    change (get palletColors "wooden") with (Val "#8B4513"%string).
    fold new_pallet.
    set (w' := UIWorkstation.with_pallets (UIWorkstation.pallets w ++ [new_pallet]) w).
    split; [done|]. split; [|split].
    + rewrite (getTotalPallets_insert c i w w' Hw). unfold w'.
      cbn [UIWorkstation.pallets UIWorkstation.with_pallets].
      rewrite length_app. cbn [length]. lia.
    + destruct (published_pallet (with_workstations (<[i := w']> (workstations c)) c)
                  i (length (UIWorkstation.pallets w)) w' new_pallet) as (cfg & Hcfg & Hp).
      * cbn. by apply list_lookup_insert_eq.
      * unfold w'. cbn. by rewrite lookup_app_r, Nat.sub_diag.
      * exists cfg. split; [done|]. by rewrite Hp.
    + unfold removePallet.
      cbn [workstations updateWorkstationConfigs with_workstations with_workstation_configs].
      rewrite list_lookup_insert_eq by done.
      rewrite list_insert_insert_eq.
      unfold w'. cbn [UIWorkstation.pallets UIWorkstation.with_pallets].
      replace (delete (length (UIWorkstation.pallets w)) (UIWorkstation.pallets w ++ [new_pallet]))
        with (UIWorkstation.pallets w).
      2:{ symmetry. apply delete_snoc. }
      apply list_insert_id. rewrite Hw. by destruct w.
Qed.

(** X14: [onPalletChange] replaces the pallet at the two indices when both
    exist, and nothing else: the number of pallets is unchanged, and the
    configuration publishes the new pallet with the colour [palletColors]
    gives its type, not the colour it came with.  When the workstation or
    the pallet does not exist the call changes nothing. *)
Theorem X14_onPalletChange (c : t) (i j : nat) (p : PalletConfig.t) :
  let c' := onPalletChange i j p c in
  (forall w, workstations c !! i = Some w -> is_Some (UIWorkstation.pallets w !! j) ->
     workstations c'
     = <[i := UIWorkstation.with_pallets (<[j := p]> (UIWorkstation.pallets w)) w]>
         (workstations c)
     /\ getTotalPallets c' = getTotalPallets c
     /\ exists cfg,
          workstation_configs c' !! i = Some cfg
          /\ WorkstationConfig.pallet_configs cfg !! j
             = Some (PalletConfig.with_color
                       (or_else falsy_string (get palletColors (PalletConfig.type p)) "#8B4513")
                       p))
  /\ (workstations c !! i = None
      \/ (exists w, workstations c !! i = Some w /\ UIWorkstation.pallets w !! j = None) ->
      c' = c).
Proof.
  cbv zeta. unfold onPalletChange. split.
  - intros w Hw [q Hq]. rewrite Hw, Hq.
    assert (i < length (workstations c)) as Hi by (by eapply lookup_lt_Some).
    assert (j < length (UIWorkstation.pallets w)) as Hj by (by eapply lookup_lt_Some).
    set (w' := UIWorkstation.with_pallets (<[j := p]> (UIWorkstation.pallets w)) w).
    split; [done|]. split.
    + rewrite (getTotalPallets_insert c i w w' Hw). unfold w'.
      cbn [UIWorkstation.pallets UIWorkstation.with_pallets].
      rewrite length_insert. lia.
    + apply (published_pallet (with_workstations (<[i := w']> (workstations c)) c) i j w' p).
      * cbn. by apply list_lookup_insert_eq.
      * unfold w'. cbn. by apply list_lookup_insert_eq.
  - intros [Hw | (w & Hw & Hp)]; rewrite Hw; [done|]. by rewrite Hp.
Qed.

(** *** The number of workstations *)

Lemma foldl_push_default (ws : list UIWorkstation.t) (l : list nat) :
  foldl (fun acc (_ : nat) => acc ++ [createDefaultWorkstation]) ws l
  = ws ++ replicate (length l) createDefaultWorkstation.
Proof.
  revert ws. induction l as [|k l IH]; intros ws; simpl.
  - by rewrite app_nil_r.
  - by rewrite IH, <- app_assoc.
Qed.

Lemma adjustWorkstationsArray_eq (n : nat) (c : t) :
  adjustWorkstationsArray n c
  = updateWorkstationConfigs
      (with_workstations
         (take n (workstations c)
          ++ replicate (n - length (workstations c)) createDefaultWorkstation) c).
Proof.
  unfold adjustWorkstationsArray.
  destruct (Nat.ltb_spec (length (workstations c)) n) as [Hgrow|Hle].
  - rewrite foldl_push_default, length_seq. by rewrite take_ge by lia.
  - replace (n - length (workstations c)) with 0 by lia. rewrite app_nil_r.
    destruct (Nat.ltb_spec n (length (workstations c))) as [Hshrink|Hsame]; [done|].
    rewrite take_ge by lia. by destruct c.
Qed.

Lemma onNumWorkstationsBlur_applied (c : t) :
  num_workstations c <> previousNumWorkstations c -> (0 < num_workstations c)%Z ->
  onNumWorkstationsBlur c
  = with_previousNumWorkstations (num_workstations c)
      (adjustWorkstationsArray (Z.to_nat (num_workstations c)) c).
Proof.
  intros Hne Hpos. unfold onNumWorkstationsBlur.
  apply Z.eqb_neq in Hne. apply Z.ltb_lt in Hpos. by rewrite Hne, Hpos.
Qed.

Lemma onNumWorkstationsBlur_ignored (c : t) :
  num_workstations c = previousNumWorkstations c \/ (num_workstations c <= 0)%Z ->
  onNumWorkstationsBlur c = c.
Proof.
  intros [Heq|Hle]; unfold onNumWorkstationsBlur.
  - apply Z.eqb_eq in Heq. by rewrite Heq.
  - destruct (Z.ltb_spec 0 (num_workstations c)); [lia|]. by rewrite andb_false_r.
Qed.

(** X15: when the requested number of workstations [n] is positive and
    differs from the number last applied, [onNumWorkstationsBlur] leaves
    exactly [n] workstations: the first ones as they were, then default
    workstations; the configuration list has [n] entries and [n] becomes
    the number last applied, so a second call changes nothing.  When [n]
    is zero, negative or the number last applied, the call changes
    nothing. *)
Theorem X15_onNumWorkstationsBlur (c : t) :
  let n := num_workstations c in
  let c' := onNumWorkstationsBlur c in
  (n <> previousNumWorkstations c /\ (0 < n)%Z ->
     length (workstations c') = Z.to_nat n
     /\ length (workstation_configs c') = Z.to_nat n
     /\ previousNumWorkstations c' = n
     /\ (forall i, i < length (workstations c) -> i < Z.to_nat n ->
                   workstations c' !! i = workstations c !! i)
     /\ (forall i, length (workstations c) <= i < Z.to_nat n ->
                   workstations c' !! i = Some createDefaultWorkstation))
  /\ (n = previousNumWorkstations c \/ (n <= 0)%Z -> c' = c)
  /\ onNumWorkstationsBlur c' = c'.
Proof.
  cbv zeta.
  destruct (decide (num_workstations c <> previousNumWorkstations c
                    /\ (0 < num_workstations c)%Z)) as [[Hne Hpos]|Hno].
  - rewrite (onNumWorkstationsBlur_applied c Hne Hpos).
    split; [|split].
    + intros _. rewrite adjustWorkstationsArray_eq.
      cbn [workstations workstation_configs previousNumWorkstations
           with_previousNumWorkstations updateWorkstationConfigs with_workstations
           with_workstation_configs].
      rewrite length_imap, length_app, length_take, length_replicate.
      split; [lia|]. split; [lia|]. split; [done|]. split.
      * intros i Hi Hn.
        rewrite lookup_app_l by (rewrite length_take; lia).
        by apply lookup_take_lt.
      * intros i [Hlo Hhi].
        rewrite lookup_app_r by (rewrite length_take; lia).
        apply lookup_replicate_2. rewrite length_take. lia.
    + intros [?|?]; [done | lia].
    + apply onNumWorkstationsBlur_ignored. left.
      by rewrite adjustWorkstationsArray_eq.
  - assert (num_workstations c = previousNumWorkstations c \/ (num_workstations c <= 0)%Z)
      as Hor by (destruct (decide (num_workstations c = previousNumWorkstations c));
                 [by left | right; lia]).
    rewrite (onNumWorkstationsBlur_ignored c Hor).
    split; [done|]. split; [done|]. by apply onNumWorkstationsBlur_ignored.
Qed.

(** *** Reloading a configuration *)

Lemma republished_side (s : SideAisleConfig.t) :
  canonical_side s ->
  SideAisleConfig.mk
    (SideAisleConfig.num_floors s) (SideAisleConfig.num_rows s)
    (SideAisleConfig.num_aisles s) (SideAisleConfig.depth s)
    ((fun g => times g (getUnitConversionFactor
                          (string_or (string_or (SideAisleConfig.wall_gap_unit s) "cm") "cm")))
       <$> SideAisleConfig.custom_gaps s)
    (SideAisleConfig.deep_gaps s)
    (times (number_or (SideAisleConfig.gap_front s) 0%float)
           (getUnitConversionFactor
              (string_or (string_or (SideAisleConfig.wall_gap_unit s) "cm") "cm")))
    (times (number_or (SideAisleConfig.gap_back s) 0%float)
           (getUnitConversionFactor
              (string_or (string_or (SideAisleConfig.wall_gap_unit s) "cm") "cm")))
    (times (number_or (SideAisleConfig.gap_left s) 0%float)
           (getUnitConversionFactor
              (string_or (string_or (SideAisleConfig.wall_gap_unit s) "cm") "cm")))
    (times (number_or (SideAisleConfig.gap_right s) 0%float)
           (getUnitConversionFactor
              (string_or (string_or (SideAisleConfig.wall_gap_unit s) "cm") "cm")))
    "cm"
  = s.
Proof.
  intros (Hu & Hf & Hb & Hl & Hr). rewrite Hu, Hf, Hb, Hl, Hr.
  change (string_or (string_or "cm" "cm") "cm") with (string_or "cm" "cm").
  rewrite published_in_cm.
  change (getUnitConversionFactor (string_or "cm" "cm")) with (Val 1%float).
  rewrite !times_one. destruct s. cbn in *. by subst.
Qed.

Lemma republished_pallets (ps : list PalletConfig.t) :
  Forall canonical_pallet ps ->
  (fun pallet =>
     PalletConfig.with_color
       (or_else falsy_string (get palletColors (PalletConfig.type pallet)) "#8B4513") pallet)
    <$> ps = ps.
Proof.
  induction 1 as [|p ps Hp _ IH]; [done|].
  rewrite fmap_cons, IH. f_equal.
  unfold canonical_pallet in Hp. rewrite <- Hp. by destruct p.
Qed.

(** X16: a canonical configuration list survives a reload: after
    [mapConfigToUIWorkstations] has rebuilt the workstations from it and
    [updateWorkstationConfigs] has published them again, the list is the
    one that was loaded; there is one workstation per configuration, and
    their number is recorded as the number last applied. *)
Theorem X16_reload_then_republish (c : t) :
  canonical (workstation_configs c) ->
  let c' := updateWorkstationConfigs (mapConfigToUIWorkstations c) in
  workstation_configs c' = workstation_configs c
  /\ length (workstations c') = length (workstation_configs c)
  /\ previousNumWorkstations c' = Z.of_nat (length (workstation_configs c)).
Proof.
  intros Hc. cbv zeta.
  unfold updateWorkstationConfigs, mapConfigToUIWorkstations.
  cbn [workstations workstation_configs previousNumWorkstations with_workstations
       with_workstation_configs with_previousNumWorkstations].
  rewrite length_fmap. split; [|done].
  apply list_eq. intros i.
  rewrite list_lookup_imap, list_lookup_fmap.
  destruct (workstation_configs c !! i) as [cfg|] eqn:Hcfg; [|done].
  destruct (Hc i cfg Hcfg) as (Hi & Ha & Hu & Hl & Hr & Hp).
  cbn [fmap option_fmap option_map UIWorkstation.aisle_space UIWorkstation.aisle_space_unit
       UIWorkstation.left_side_config UIWorkstation.right_side_config
       UIWorkstation.leftWallGaps UIWorkstation.rightWallGaps UIWorkstation.pallets
       WallGaps.front WallGaps.back WallGaps.left WallGaps.right
       GapInput.value GapInput.unit].
  f_equal.
  rewrite (republished_side _ Hl), (republished_side _ Hr), (republished_pallets _ Hp).
  rewrite Hu. change (getUnitConversionFactor (string_or "cm" "cm")) with (Val 1%float).
  rewrite times_one. unfold number_or. rewrite Ha.
  destruct cfg. cbn in *. by subst.
Qed.

Lemma X16_witness :
  let c := updateWorkstationConfigs three_workstations in
  workstation_configs (updateWorkstationConfigs (mapConfigToUIWorkstations c))
  = workstation_configs c
  /\ length (workstations (updateWorkstationConfigs (mapConfigToUIWorkstations c))) = 3
  /\ previousNumWorkstations (updateWorkstationConfigs (mapConfigToUIWorkstations c)) = 3%Z.
Proof.
  apply (X16_reload_then_republish (updateWorkstationConfigs three_workstations)).
  intros i cfg Hcfg.
  destruct i as [|[|[|i]]]; [| | |done]; injection Hcfg as <-;
    repeat split; try (vm_compute; reflexivity); constructor.
Defined.

End Workstations.

(** ** The warehouse dimensions (warehouse.component.ts) *)
Section WarehouseDimensions.
Import JS WarehouseDimensionFields.

(** X17: [updateDimensionValue] stores in the configuration the displayed
    value of the named field multiplied by the factor of that field's
    unit, leaves the other three fields and the configuration's unit as
    they are, and copies the four fields to [warehouseDimensions].  Right
    after [syncDimensionsFromConfig] the displayed values are the stored
    ones and every field has the configuration's unit: the update then
    leaves the configuration unchanged when that unit is cm or missing,
    and multiplies the stored field by 100 when it is m. *)
Theorem X17_updateDimensionValue (field : dimension) (d : dimensions) :
  let stored (d : dimensions) :=
    mk_per_dimension (Dimensions.length (warehouse_dimensions d))
                     (Dimensions.width (warehouse_dimensions d))
                     (Dimensions.height (warehouse_dimensions d))
                     (Dimensions.height_safety_margin (warehouse_dimensions d)) in
  let d' := updateDimensionValue field d in
  let synced := updateDimensionValue field (syncDimensionsFromConfig d) in
  (field_of (stored d') field
   = times (field_of (displayDimensions d) field)
           (WarehouseVisualizerComponent.getUnitConversionFactor
              (field_of (dimensionUnits d) field))
   /\ (forall other, other <> field -> field_of (stored d') other = field_of (stored d) other)
   /\ Dimensions.unit (warehouse_dimensions d') = Dimensions.unit (warehouse_dimensions d)
   /\ warehouseDimensions d' = Some (stored d')
   /\ dimensionUnits d' = dimensionUnits d
   /\ displayDimensions d' = displayDimensions d)
  /\ (Dimensions.unit (warehouse_dimensions d) ∈ [""; "cm"]%string ->
      warehouse_dimensions synced = warehouse_dimensions d)
  /\ (Dimensions.unit (warehouse_dimensions d) = "m"%string ->
      field_of (stored synced) field = (field_of (stored d) field * 100)%float).
Proof.
  cbv zeta. split; [|split].
  - destruct field; (split; [done|]); (split; [|done]);
      intros other Ho; by destruct other.
  - intros Hu.
    assert (string_or (Dimensions.unit (warehouse_dimensions d)) "cm" = "cm"%string) as Hcm.
    { repeat (apply elem_of_cons in Hu as [->|Hu]); [done..|by apply elem_of_nil in Hu]. }
    destruct field; unfold updateDimensionValue, syncDimensionsFromConfig;
      cbn [warehouse_dimensions dimensionUnits displayDimensions warehouseDimensions
           updateWarehouseDimensions field_of of_length of_width of_height
           of_height_safety_margin];
      rewrite Hcm;
      change (WarehouseVisualizerComponent.getUnitConversionFactor "cm") with (Val 1%float);
      rewrite times_one; by destruct (warehouse_dimensions d).
  - intros Hu. destruct field; unfold updateDimensionValue, syncDimensionsFromConfig;
      cbn [warehouse_dimensions dimensionUnits displayDimensions warehouseDimensions
           updateWarehouseDimensions field_of of_length of_width of_height
           of_height_safety_margin Dimensions.length Dimensions.width Dimensions.height
           Dimensions.height_safety_margin];
      by rewrite Hu.
Qed.

End WarehouseDimensions.

(** ** The default workstations (warehouse.component.ts) *)
Section DefaultWorkstations.
Import JS WarehouseVisualizerComponent.

Lemma initializeWorkstations_eq (c : t) :
  initializeWorkstations c
  = updateWorkstationConfigs
      (with_workstations
         (replicate (Z.to_nat (num_workstations c)) createDefaultWorkstation) c).
Proof.
  unfold initializeWorkstations. by rewrite foldl_push_default, length_seq.
Qed.

Lemma imap_replicate {A B : Type} (f : nat -> A -> B) (n : nat) (x : A) :
  imap f (replicate n x) = (fun i => f i x) <$> seq 0 n.
Proof.
  revert f. induction n as [|n IH]; intros f; [done|].
  cbn [replicate imap seq fmap list_fmap]. f_equal.
  rewrite IH, <- fmap_S_seq, <- list_fmap_compose. done.
Qed.

(** X18: [initializeWorkstations] leaves [num_workstations] default
    workstations (none for a number below one) and publishes for the one
    at position [i] the default configuration with index [i]; this
    configuration list is canonical, so a reload keeps it. *)
Theorem X18_initializeWorkstations (c : t) :
  let c' := initializeWorkstations c in
  let n := Z.to_nat (num_workstations c) in
  workstations c' = replicate n createDefaultWorkstation
  /\ workstation_configs c' = default_config <$> seq 0 n
  /\ canonical (workstation_configs c').
Proof.
  cbv zeta. rewrite initializeWorkstations_eq.
  assert (workstation_configs
            (updateWorkstationConfigs
               (with_workstations
                  (replicate (Z.to_nat (num_workstations c)) createDefaultWorkstation) c))
          = default_config <$> seq 0 (Z.to_nat (num_workstations c))) as Hcfg.
  { unfold updateWorkstationConfigs.
    cbn [workstations workstation_configs with_workstations with_workstation_configs].
    rewrite imap_replicate. apply list_fmap_ext. intros _ i _.
    vm_compute. reflexivity. }
  assert (canonical (default_config <$> seq 0 (Z.to_nat (num_workstations c)))) as Hcan.
  { intros i cfg Hi. rewrite list_lookup_fmap in Hi.
    destruct (seq 0 _ !! i) as [j|] eqn:Hj; [|done].
    apply lookup_seq in Hj as [-> _]. injection Hi as <-.
    repeat split; try (vm_compute; reflexivity); constructor. }
  split; [done|]. split; [done|]. by rewrite Hcfg.
Qed.

End DefaultWorkstations.


(** ** The boxes of the scene (visualization.component.ts) *)
Section SceneBoxes.
Import JS VisualizationComponent.
Local Open Scope Q_scope.





(** *** The bounds of a workstation *)







End SceneBoxes.

(** ** The plan view (visualization.component.ts) *)
Section PlanView.
Import JS VisualizationComponent.
Local Open Scope Q_scope.






End PlanView.

(** ** Printed integers *)
Section PrintedIntegers.
Import Schema.

Lemma text_inj (a b : Z) : text a = text b -> a = b.
Proof.
  unfold text. intros H. apply DecimalZ.to_int_inj.
  assert (forall n, Z.to_int n <> Decimal.Pos Decimal.Nil
                    /\ Z.to_int n <> Decimal.Neg Decimal.Nil) as Hn.
  { intros [|p|p]; split; try discriminate;
      intros [= Hp]; by apply DecimalPos.Unsigned.to_uint_nonnil in Hp. }
  apply (f_equal NilZero.int_of_string) in H.
  rewrite !NilZero.isi in H by apply Hn. by injection H.
Qed.

Lemma string_of_uint_digits (d : Decimal.uint) (c : ascii) :
  c ∈ list_ascii_of_string (NilEmpty.string_of_uint d) ->
  c ∈ list_ascii_of_string "0123456789".
Proof.
  induction d; cbn [NilEmpty.string_of_uint list_ascii_of_string]; intros Hc;
    try (by apply elem_of_nil in Hc);
    apply elem_of_cons in Hc as [->|Hc]; try (by apply IHd); compute_done.
Qed.

(** A printed integer is made of digits and the minus sign. *)
Lemma text_chars (n : Z) (c : ascii) :
  c ∈ list_ascii_of_string (text n) -> c ∈ list_ascii_of_string "-0123456789".
Proof.
  assert (forall d, c ∈ list_ascii_of_string (NilZero.string_of_uint d) ->
                    c ∈ list_ascii_of_string "-0123456789") as Hu.
  { intros d Hc. apply list_elem_of_further.
    destruct d; try (by eapply string_of_uint_digits).
    cbn in Hc. apply list_elem_of_singleton in Hc as ->. compute_done. }
  unfold text. destruct (Z.to_int n) as [d|d]; cbn [NilZero.string_of_int list_ascii_of_string].
  - apply Hu.
  - intros Hc. apply elem_of_cons in Hc as [->|Hc]; [compute_done | by apply (Hu d)].
Qed.

(** A field of an address ends where its separator, a minus sign followed
    by a letter, begins. *)
Lemma field_inj (t t' rest rest' : string) (c : ascii) :
  c ∉ list_ascii_of_string t -> c ∉ list_ascii_of_string t' -> c <> "-"%char ->
  (t ++ String "-" (String c rest) = t' ++ String "-" (String c rest'))%string ->
  t = t' /\ rest = rest'.
Proof.
  revert t'. induction t as [|a t IH]; intros t' Ht Ht' Hc Heq.
  - destruct t' as [|a' t']; cbn in Heq.
    + by injection Heq as ->.
    + injection Heq as <- Heq. destruct t' as [|b t']; cbn in Heq.
      * injection Heq as Heq _. congruence.
      * injection Heq as <- _. exfalso. apply Ht'. cbn. apply list_elem_of_further, list_elem_of_here.
  - destruct t' as [|a' t']; cbn in Heq.
    + injection Heq as -> Heq. destruct t as [|b t]; cbn in Heq.
      * injection Heq as Heq _. congruence.
      * injection Heq as -> _. exfalso. apply Ht. cbn. apply list_elem_of_further, list_elem_of_here.
    + injection Heq as <- Heq. cbn in Ht, Ht'.
      apply not_elem_of_cons in Ht as [_ Ht]. apply not_elem_of_cons in Ht' as [_ Ht'].
      destruct (IH t' Ht Ht' Hc Heq) as [-> ->]. done.
Qed.

Lemma text_field_inj (a b : Z) (rest rest' : string) (c : ascii) :
  c ∉ list_ascii_of_string "-0123456789" ->
  (text a ++ String "-" (String c rest) = text b ++ String "-" (String c rest'))%string ->
  a = b /\ rest = rest'.
Proof.
  intros Hc Heq.
  destruct (field_inj (text a) (text b) rest rest' c) as [Ht Hr]; [..|done|].
  - intros Hin. by apply Hc, (text_chars a).
  - intros Hin. by apply Hc, (text_chars b).
  - intros ->. apply Hc. compute_done.
  - split; [by apply text_inj | done].
Qed.

(** An address determines its five numbers. *)
Lemma address_inj (w r c f w' r' c' f' : Z) (k k' : nat) :
  address w r c f k = address w' r' c' f' k' ->
  w = w' /\ r = r' /\ c = c' /\ f = f' /\ k = k'.
Proof.
  unfold address. intros Heq. cbn [append] in Heq. injection Heq as Heq.
  apply text_field_inj in Heq as [Hw Heq]; [|compute_done].
  apply text_field_inj in Heq as [Hr Heq]; [|compute_done].
  apply text_field_inj in Heq as [Hc Heq]; [|compute_done].
  apply text_field_inj in Heq as [Hf Heq]; [|compute_done].
  apply text_inj in Heq. repeat split; lia.
Qed.

End PrintedIntegers.

(** ** The rows of the search-identifier query *)
Section SearchIdRows.
Import Schema.



(** The rank grows along the table among the pallets of one key. *)
Lemma occupancy_rank_lt (ps : list warehouse_pallet_table.row) (i j : nat)
    (p q : warehouse_pallet_table.row) :
  ps !! i = Some p -> cell_key p = cell_key q -> i < j ->
  occupancy_rank ps i p < occupancy_rank ps j q.
Proof.
  intros Hi Hk Hij. unfold occupancy_rank.
  replace j with (S i + (j - S i)) by lia.
  rewrite <- take_take_drop, (take_S_r _ _ p) by done.
  rewrite !filter_app, !length_app, filter_cons_True by done.
  rewrite <- Hk. cbn [length]. lia.
Qed.

Lemma occupancy_rank_inj (ps : list warehouse_pallet_table.row) (i j : nat)
    (p q : warehouse_pallet_table.row) :
  ps !! i = Some p -> ps !! j = Some q -> cell_key p = cell_key q ->
  occupancy_rank ps i p = occupancy_rank ps j q -> i = j.
Proof.
  intros Hi Hj Hk Hr.
  destruct (Nat.lt_trichotomy i j) as [Hlt|[->|Hlt]]; [|done|].
  - pose proof (occupancy_rank_lt ps i j p q Hi Hk Hlt). lia.
  - pose proof (occupancy_rank_lt ps j i q p Hj (eq_sym Hk) Hlt). lia.
Qed.

(** The rows the query returns: one for each position of the pallet
    table. *)
Lemma search_ids_spec (db : database) (r : result) :
  consistent db ->
  r ∈ search_ids db <->
  exists i p,
    pallets db !! i = Some p
    /\ r = select_list p (workstation_of db p) (Z.of_nat (occupancy_rank (pallets db) i p)).
Proof.
  intros Hdb.
  pose proof (pallets_sorted db Hdb) as Hsorted.
  set (g := fun q => (q, workstation_of db q)).
  assert (forall q, (g q).1 = q) as Hg by done.
  unfold search_ids. rewrite (join_consistent db Hdb). fold g.
  rewrite list_elem_of_fmap. split.
  - intros ([[p' w'] n] & -> & Hr).
    apply (ROW_NUMBER_joined g Hg (pallets db) Hsorted) in Hr as (j & p & Hj & Heq & ->).
    unfold g in Heq. simplify_eq. cbn [fst snd].
    assert (p ∈ pallets db) as Hp.
    { apply list_elem_of_lookup_2, list_elem_of_filter in Hj. by destruct Hj. }
    apply list_elem_of_lookup_1 in Hp as [i Hi].
    exists i, p. split; [done|]. unfold occupancy_rank.
    assert (j = length (filter (fun q => cell_key q = cell_key p) (take i (pallets db))))
      as <-; [|done].
    eapply NoDup_lookup; [|exact Hj|by apply filter_lookup_rank].
    apply NoDup_filter. by eapply (sorted_key_NoDup warehouse_pallet_table.pallet_id).
  - intros (i & p & Hi & ->).
    exists (g p, Z.of_nat (occupancy_rank (pallets db) i p)). split; [done|].
    apply (ROW_NUMBER_joined g Hg (pallets db) Hsorted).
    exists (length (filter (fun q => cell_key q = cell_key p) (take i (pallets db)))), p.
    split; [by apply filter_lookup_rank | done].
Qed.

(** X25: when the query gives two different pallets the same search
    identifier, the two pallets are at the same floor, row and column of
    workstations with the same index, and they differ in their side or in
    their workstation: two pallets on the same side of the same
    workstation never share an identifier. *)
Theorem X25_shared_search_id (script : list statement) (db : database) (r1 r2 : result) :
  run script created = Some db ->
  r1 ∈ search_ids db -> r2 ∈ search_ids db ->
  pallet_id r1 <> pallet_id r2 ->
  search_id r1 = search_id r2 ->
  exists p1 p2,
    (p1 ∈ pallets db /\ warehouse_pallet_table.pallet_id p1 = pallet_id r1)
    /\ (p2 ∈ pallets db /\ warehouse_pallet_table.pallet_id p2 = pallet_id r2)
    /\ warehouse_pallet_table.floor_idx p1 = warehouse_pallet_table.floor_idx p2
    /\ warehouse_pallet_table.row_idx p1 = warehouse_pallet_table.row_idx p2
    /\ warehouse_pallet_table.aisle_idx p1 = warehouse_pallet_table.aisle_idx p2
    /\ workstation_table.workstation_index (workstation_of db p1)
       = workstation_table.workstation_index (workstation_of db p2)
    /\ (warehouse_pallet_table.side p1 <> warehouse_pallet_table.side p2
        \/ warehouse_pallet_table.workstation_id p1
           <> warehouse_pallet_table.workstation_id p2).
Proof.
  intros Hrun H1 H2 Hne Hid.
  assert (consistent db) as Hdb by (eapply run_consistent; [apply created_consistent|done]).
  apply (search_ids_spec db r1 Hdb) in H1 as (i & p1 & Hi & ->).
  apply (search_ids_spec db r2 Hdb) in H2 as (j & p2 & Hj & ->).
  cbn [pallet_id search_id select_list] in Hne, Hid.
  apply (address_inj
           (workstation_table.workstation_index (workstation_of db p1))
           (warehouse_pallet_table.row_idx p1) (warehouse_pallet_table.aisle_idx p1)
           (warehouse_pallet_table.floor_idx p1)
           (workstation_table.workstation_index (workstation_of db p2))
           (warehouse_pallet_table.row_idx p2) (warehouse_pallet_table.aisle_idx p2)
           (warehouse_pallet_table.floor_idx p2)) in Hid as (Hw & Hr & Hc & Hf & Hk).
  exists p1, p2.
  split; [split; [by eapply list_elem_of_lookup_2 | done]|].
  split; [split; [by eapply list_elem_of_lookup_2 | done]|].
  split; [done|]. split; [done|]. split; [done|]. split; [done|].
  destruct (decide (warehouse_pallet_table.side p1 = warehouse_pallet_table.side p2))
    as [Hs|]; [|by left].
  destruct (decide (warehouse_pallet_table.workstation_id p1
                    = warehouse_pallet_table.workstation_id p2)) as [Hws|]; [|by right].
  exfalso. apply Hne.
  assert (i = j) as ->.
  { apply (occupancy_rank_inj (pallets db) i j p1 p2 Hi Hj); [|done].
    unfold cell_key. by rewrite Hs, Hws, Hf, Hr, Hc. }
  by simplify_eq.
Qed.

Lemma X25_witness :
  exists p1 p2,
    (p1 ∈ pallets sample_database /\ warehouse_pallet_table.pallet_id p1 = 1%Z)
    /\ (p2 ∈ pallets sample_database /\ warehouse_pallet_table.pallet_id p2 = 5%Z)
    /\ warehouse_pallet_table.floor_idx p1 = warehouse_pallet_table.floor_idx p2
    /\ warehouse_pallet_table.row_idx p1 = warehouse_pallet_table.row_idx p2
    /\ warehouse_pallet_table.aisle_idx p1 = warehouse_pallet_table.aisle_idx p2
    /\ workstation_table.workstation_index (workstation_of sample_database p1)
       = workstation_table.workstation_index (workstation_of sample_database p2)
    /\ (warehouse_pallet_table.side p1 <> warehouse_pallet_table.side p2
        \/ warehouse_pallet_table.workstation_id p1
           <> warehouse_pallet_table.workstation_id p2).
Proof.
  apply (X25_shared_search_id sample_data sample_database
           (select_list sample_pallet_1 sample_workstation_1 1)
           (select_list sample_pallet_5 sample_workstation_1 1)).
  - vm_compute. reflexivity.
  - apply (list_elem_of_lookup_2 _ 0). vm_compute. reflexivity.
  - apply (list_elem_of_lookup_2 _ 4). vm_compute. reflexivity.
  - vm_compute. discriminate.
  - vm_compute. reflexivity.
Defined.







End SearchIdRows.
